(** * FreeCAD NativeIFC: geometry property synchronisation and view provider

    A shallow embedding of [ifc_geometry.py] (pull-sync [add_geom_properties]
    and push-sync [set_geom_property]) and of the view provider base class of
    [ifc_viewproviders/ifc_vp_object.py].

    Conventions of the embedding:
    - Python floats are exact rationals ([Q]); [0.001] is [1 # 1000].
    - The host document object is a record with a finite map of properties;
      [PropertiesList] is the set of its property names.
    - An IFC entity is a dynamically typed node: a step id, the chain of its
      class names (declared class first, then its supertypes) and its
      attributes.  Attribute access on a missing attribute raises, as in
      Python.
    - Python exceptions are explicit: every operation returns an [outcome].
    - The effects on the IFC file are recorded in a journal, oldest first. *)

From Stdlib Require Import QArith.
From stdpp Require Import gmap strings list.

(** ** Exceptions and outcomes *)

(** What an [AttributeError] names as the receiver of the failed access:
    the host document object, the value of one of its properties, an IFC
    entity, [None], or a tuple. *)
Inductive receiver : Set :=
| OnDocumentObject
| OnPropertyValue
| OnEntity
| OnNone
| OnTuple.

Inductive exn : Set :=
| AttributeError (r : receiver)
| TypeError
| ValueError
| IndexError
| NameError
| ZeroDivisionError.

Inductive outcome (A : Type) : Type :=
| Ok (a : A)
| Raise (e : exn).

Arguments Ok {A} a.
Arguments Raise {A} e.

Definition obind {A B : Type} (f : A → outcome B) (x : outcome A) : outcome B :=
  match x with
  | Ok a => f a
  | Raise e => Raise e
  end.

#[global] Instance outcome_ret : MRet outcome := λ A a, Ok a.
#[global] Instance outcome_bind : MBind outcome := λ A B f x, obind f x.

Fixpoint omap_list {A B : Type} (f : A → outcome B) (l : list A) : outcome (list B) :=
  match l with
  | [] => Ok []
  | a :: l' =>
      match f a with
      | Ok b =>
          match omap_list f l' with
          | Ok bs => Ok (b :: bs)
          | Raise e => Raise e
          end
      | Raise e => Raise e
      end
  end.

(** ** The host side: vectors, properties, document objects *)

Record Vector : Set := mkVector { vx : Q; vy : Q; vz : Q }.

(** [FreeCAD.Vector(seq)]: a vector has three components; a sequence of any
    other size is refused by the host. *)
Definition FreeCAD_Vector (t : list Q) : outcome Vector :=
  match t with
  | [x; y; z] => Ok (mkVector x y z)
  | _ => Raise ValueError
  end.

(** [v.multiply(s)] *)
Definition multiply (v : Vector) (s : Q) : Vector :=
  mkVector (vx v * s) (vy v * s) (vz v * s).

(** [tuple(v)] *)
Definition tuple (v : Vector) : list Q := [vx v; vy v; vz v].

Inductive pvalue : Set :=
| PLength (Value : Q)
| PVector (v : Vector)
| PVectorList (l : list Vector)
| POther (repr : string).

Inductive ptype : Set :=
| App_PropertyLength
| App_PropertyVector
| App_PropertyVectorList.

Definition default_value (t : ptype) : pvalue :=
  match t with
  | App_PropertyLength => PLength 0
  | App_PropertyVector => PVector (mkVector 0 0 0)
  | App_PropertyVectorList => PVectorList []
  end.

(** A document object of the host: its name, its label, its properties, and
    the names of the further attributes and methods the host gives it, which
    are no properties. *)
Record DocumentObject : Type := mkDocumentObject {
  Name : string;
  Label : string;
  props : gmap string pvalue;
  other_attributes : gset string
}.

Definition PropertiesList (o : DocumentObject) : gset string := dom (props o).

Definition with_props (o : DocumentObject) (p : gmap string pvalue) : DocumentObject :=
  mkDocumentObject (Name o) (Label o) p (other_attributes o).

(** The value of the attribute [name] of the object, if it has one: a
    property; else one of the attributes this code itself uses of every
    document object ([Name], [Label], [PropertiesList], [addProperty]); else
    one of its further attributes.  What is no property has a value this
    code takes for none of its quantities, vectors or lists. *)
Definition attribute (o : DocumentObject) (name : string) : option pvalue :=
  match props o !! name with
  | Some v => Some v
  | None =>
      if String.eqb name "Name" then Some (POther (Name o))
      else if String.eqb name "Label" then Some (POther (Label o))
      else if String.eqb name "PropertiesList" then Some (POther name)
      else if String.eqb name "addProperty" then Some (POther name)
      else if bool_decide (name ∈ other_attributes o) then Some (POther name)
      else None
  end.

(** The object has an attribute [name]: [getattr(obj, name)] returns. *)
Definition hasattr (o : DocumentObject) (name : string) : Prop :=
  is_Some (attribute o name).

(** ** The IFC side: entities, files, effects *)

Inductive value : Type :=
| VNull
| VNum (q : Q)
| VStr (s : string)
| VNums (l : list Q)
| VEnt (e : entity)
| VEnts (l : list entity)
with entity : Type :=
| Entity (id : nat) (classes : list string) (attrs : list (string * value)).

Definition step_id (e : entity) : nat := let (i, _, _) := e in i.
Definition classes_of (e : entity) : list string := let (_, c, _) := e in c.
Definition attrs_of (e : entity) : list (string * value) := let (_, _, a) := e in a.

(** [e.is_a(cls)]: the entity is of class [cls] or of one of its subtypes. *)
Definition is_a (e : entity) (cls : string) : bool :=
  bool_decide (cls ∈ classes_of e).

Fixpoint assoc (name : string) (l : list (string * value)) : option value :=
  match l with
  | [] => None
  | (k, v) :: l' => if String.eqb k name then Some v else assoc name l'
  end.

(** [e.name] *)
Definition ifc_getattr (e : entity) (name : string) : outcome value :=
  match assoc name (attrs_of e) with
  | Some v => Ok v
  | None => Raise (AttributeError OnEntity)
  end.

(** The receiver of a further attribute access: [None.x] raises. *)
Definition as_entity (v : value) : outcome entity :=
  match v with
  | VEnt e => Ok e
  | _ => Raise (AttributeError OnNone)
  end.

(** A value that is iterated, measured with [len] or indexed. *)
Definition as_entities (v : value) : outcome (list entity) :=
  match v with
  | VEnts l => Ok l
  | _ => Raise TypeError
  end.

(** A value used as a number in a product. *)
Definition as_num (v : value) : outcome Q :=
  match v with
  | VNum q => Ok q
  | _ => Raise TypeError
  end.

(** A value used as a tuple of numbers. *)
Definition as_nums (v : value) : outcome (list Q) :=
  match v with
  | VNums l => Ok l
  | _ => Raise TypeError
  end.

Definition attr_entity (e : entity) (name : string) : outcome entity :=
  ifc_getattr e name ≫= as_entity.
Definition attr_entities (e : entity) (name : string) : outcome (list entity) :=
  ifc_getattr e name ≫= as_entities.
Definition attr_num (e : entity) (name : string) : outcome Q :=
  ifc_getattr e name ≫= as_num.
Definition attr_nums (e : entity) (name : string) : outcome (list Q) :=
  ifc_getattr e name ≫= as_nums.

(** [v == "..."] for an attribute value and a string literal. *)
Definition value_is_str (v : value) (s : string) : bool :=
  match v with
  | VStr s' => String.eqb s' s
  | _ => false
  end.

(** The IFC file ([ifcopenshell.file]) as far as this code reads it without
    going through an entity: the scale of its declared length unit and the
    next free step id. *)
Record file : Set := mkFile {
  unit_scale : Q;
  next_id : nat
}.

(** Modelled from the spec: the toolkit's [calculate_unit_scale] is not among
    the sources; the spec calls its result "a scale factor derived from the
    IFC file's declared unit".  Applied to [None] it raises. *)
Definition calculate_unit_scale (f : option file) : outcome Q :=
  match f with
  | Some f => Ok (unit_scale f)
  | None => Raise (AttributeError OnNone)
  end.

(** The effects the code has on the IFC file: the three toolkit usecases it
    runs, and the direct assignment of an entity attribute. *)
Inductive ifc_effect : Type :=
| edit_attributes (product : entity) (attributes : gmap string value)
| create_entity (ifc_class : string) (created : entity)
| remove_product (product : entity)
| assign_attribute (target : entity) (name : string) (v : value).

Definition is_create (e : ifc_effect) : bool :=
  match e with
  | create_entity _ _ => true
  | _ => false
  end.

(** ** The world and the monad of the embedding *)

Record world : Type := mkWorld {
  w_obj : DocumentObject;
  w_journal : list ifc_effect
}.

Definition M (A : Type) : Type := world → outcome A * world.

#[global] Instance M_ret : MRet M := λ A a w, (Ok a, w).
#[global] Instance M_bind : MBind M := λ A B f m w,
  match m w with
  | (Ok a, w') => f a w'
  | (Raise e, w') => (Raise e, w')
  end.

Definition lift {A : Type} (x : outcome A) : M A := λ w, (x, w).

Definition get_obj : M DocumentObject := λ w, (Ok (w_obj w), w).

(** [name in obj.PropertiesList] *)
Definition in_PropertiesList (name : string) : M bool :=
  o ← get_obj; mret (bool_decide (name ∈ PropertiesList o)).

(** [obj.addProperty(type, name, group)]: the host refuses a name that is
    already a property; a new property starts at the default of its type. *)
Definition addProperty (t : ptype) (name group : string) : M unit := λ w,
  match props (w_obj w) !! name with
  | Some _ => (Raise NameError, w)
  | None =>
      (Ok (), mkWorld (with_props (w_obj w) (<[name := default_value t]> (props (w_obj w))))
                      (w_journal w))
  end.

(** [obj.name = v]: assignment to an existing property.  The host's own
    validation of the value is outside this embedding. *)
Definition setattr (name : string) (v : pvalue) : M unit := λ w,
  match props (w_obj w) !! name with
  | Some _ =>
      (Ok (), mkWorld (with_props (w_obj w) (<[name := v]> (props (w_obj w))))
                      (w_journal w))
  | None => (Raise (AttributeError OnDocumentObject), w)
  end.

(** [getattr(obj, name)] *)
Definition getattr (name : string) : M pvalue := λ w,
  match attribute (w_obj w) name with
  | Some v => (Ok v, w)
  | None => (Raise (AttributeError OnDocumentObject), w)
  end.

(** [q.Value] of a length quantity. *)
Definition Value_of (v : pvalue) : outcome Q :=
  match v with
  | PLength q => Ok q
  | _ => Raise (AttributeError OnPropertyValue)
  end.

(** [tuple(v)] of a property value that is a vector. *)
Definition tuple_of (v : pvalue) : outcome (list Q) :=
  match v with
  | PVector v => Ok (tuple v)
  | _ => Raise TypeError
  end.

(** A property value that is a list of vectors. *)
Definition vectors_of (v : pvalue) : outcome (list Vector) :=
  match v with
  | PVectorList l => Ok l
  | _ => Raise TypeError
  end.

(** [ifcopenshell.api.run(usecase, ifcfile, ...)] for a usecase that returns
    nothing: the call is entered in the journal. *)
Definition api_run (e : ifc_effect) : M unit := λ w,
  (Ok (), mkWorld (w_obj w) (w_journal w ++ [e])).

(** [ifcopenshell.api.run("root.create_entity", ifcfile, ifc_class=...)].
    The usecase creates rooted entities: it gives the new entity a
    [GlobalId].  The class this code asks for, [IfcCartesianPoint], has no
    such attribute, and the toolkit raises [ValueError]; for another class
    the new entity, with the next step id not in use, is entered in the
    journal. *)
Definition api_create_entity (f : file) (ifc_class : string) : M entity := λ w,
  if String.eqb ifc_class "IfcCartesianPoint" then (Raise ValueError, w)
  else
    let n := (next_id f + length (filter (λ e, Is_true (is_create e)) (w_journal w)))%nat in
    let p := Entity n [ifc_class] [] in
    (Ok p, mkWorld (w_obj w) (w_journal w ++ [create_entity ifc_class p])).

(** [for x in l: body(x)] without early exit. *)
Fixpoint for_each {A : Type} (body : A → M unit) (l : list A) : M unit :=
  match l with
  | [] => mret ()
  | a :: l' => body a ;; for_each body l'
  end.

(** [for x in l: body(x)] where the body may [return] a value from the
    enclosing function: [Some b] stops the loop. *)
Fixpoint for_return {A R : Type} (body : A → M (option R)) (l : list A) : M (option R) :=
  match l with
  | [] => mret None
  | a :: l' =>
      r ← body a;
      match r with
      | Some b => mret (Some b)
      | None => for_return body l'
      end
  end.

(** [if c: m] *)
Definition when (c : bool) (m : M unit) : M unit :=
  if c then m else mret ().

(** [if name not in obj.PropertiesList: obj.addProperty(type, name, "Geometry")] *)
Definition ensure_property (t : ptype) (name : string) : M unit :=
  b ← in_PropertiesList name;
  when (negb b) (addProperty t name "Geometry").

(** ** Unit conversion *)

(** [scaling = calculate_unit_scale(ifcfile) * 1000]: the given scale is for
    metres, the host works in millimetres. *)
Definition pull_scaling (s : Q) : Q := s * 1000.

(** [0.001 / scaling], as a rational. *)
Definition push_factor (s : Q) : Q := (1 # 1000) / s.

(** [scaling = 0.001 / calculate_unit_scale(ifcfile)]: division by zero
    raises. *)
Definition push_scaling (s : Q) : outcome Q :=
  if Qeq_bool s 0 then Raise ZeroDivisionError else Ok (push_factor s).

(** ** Walking the representation *)

(** [element.Representation.Representations] *)
Definition representations (element : option entity) : outcome (list entity) :=
  match element with
  | None => Raise (AttributeError OnNone)
  | Some e => r ← attr_entity e "Representation"; attr_entities r "Representations"
  end.

(** The guard shared by every branch of both functions:
    [rep.RepresentationIdentifier == "Body"] and [len(rep.Items) == 1];
    the continuation receives [rep.Items[0]]. *)
Definition body_item (rep : entity) : outcome (option entity) :=
  ident ← ifc_getattr rep "RepresentationIdentifier";
  if value_is_str ident "Body" then
    items ← attr_entities rep "Items";
    match items with
    | [item] => mret (Some item)
    | _ => mret None
    end
  else mret None.

(** A loop body of [set_geom_property] under that guard; [None] lets the
    loop go on. *)
Definition single_body_item {R : Type} (rep : entity)
    (k : entity → M (option R)) : M (option R) :=
  item ← lift (body_item rep);
  match item with
  | Some item => k item
  | None => mret None
  end.

(** ** Pull-sync: [add_geom_properties] *)

(** [points = [p + (0,) for p in points if len(p) < 3]] *)
Definition pad_points (points : list (list Q)) : list (list Q) :=
  map (λ p : list Q, p ++ [0%Q]) (filter (λ p : list Q, (length p < 3)%nat) points).

(** The three comprehensions that build the value of [PolylinePoints]. *)
Definition polyline_vectors (scaling : Q) (curve : entity) : outcome (list Vector) :=
  pts ← attr_entities curve "Points";
  points ← omap_list (λ p, attr_nums p "Coordinates") pts;
  let points := pad_points points in
  omap_list (λ p, v ← FreeCAD_Vector p; mret (multiply v scaling)) points.

(** The body of the branch for an [IfcExtrudedAreaSolid]. *)
Definition add_extrusion_properties (scaling : Q) (ext : entity) : M unit :=
  ensure_property App_PropertyLength "ExtrusionDepth";;
  depth ← lift (attr_num ext "Depth");
  setattr "ExtrusionDepth" (PLength (depth * scaling));;
  ensure_property App_PropertyVector "ExtrusionDirection";;
  dir ← lift (attr_entity ext "ExtrudedDirection");
  ratios ← lift (attr_nums dir "DirectionRatios");
  v ← lift (FreeCAD_Vector ratios);
  setattr "ExtrusionDirection" (PVector v);;
  swept ← lift (attr_entity ext "SweptArea");
  if is_a swept "IfcRectangleProfileDef" then
    ensure_property App_PropertyLength "RectangleLength";;
    xdim ← lift (attr_num swept "XDim");
    setattr "RectangleLength" (PLength (xdim * scaling));;
    ensure_property App_PropertyLength "RectangleWidth";;
    ydim ← lift (attr_num swept "YDim");
    setattr "RectangleWidth" (PLength (ydim * scaling))
  else if is_a swept "IfcArbitraryClosedProfileDef" then
    curve ← lift (attr_entity swept "OuterCurve");
    if is_a curve "IfcPolyline" then
      ensure_property App_PropertyVectorList "PolylinePoints";;
      points ← lift (polyline_vectors scaling curve);
      setattr "PolylinePoints" (PVectorList points)
    else mret ()
  else mret ().

(** The body of the loop over the representations.  The branch for the
    ["Axis"] representation is disabled in the source ([elif False]). *)
Definition add_geom_rep (scaling : Q) (rep : entity) : M unit :=
  item ← lift (body_item rep);
  match item with
  | Some ext =>
      if is_a ext "IfcExtrudedAreaSolid"
      then add_extrusion_properties scaling ext
      else mret ()
  | None => mret ()
  end.

(** ** Push-sync: [set_geom_property] *)

(** The loop body of the branch [prop == "ExtrusionDepth"]. *)
Definition edit_ExtrusionDepth (scaling : Q) (prop : string) (rep : entity)
    : M (option bool) :=
  single_body_item rep (λ item,
    if is_a item "IfcExtrudedAreaSolid" then
      let elem := item in
      pv ← getattr prop;
      q ← lift (Value_of pv);
      let depth := (q * scaling)%Q in
      api_run (edit_attributes elem {[ "Depth" := VNum depth ]});;
      mret (Some true)
    else mret None).

(** The loop body of the branch [prop == "ExtrusionDirection"]. *)
Definition edit_ExtrusionDirection (prop : string) (rep : entity)
    : M (option bool) :=
  single_body_item rep (λ item,
    if is_a item "IfcExtrudedAreaSolid" then
      elem ← lift (attr_entity item "ExtrudedDirection");
      pv ← getattr prop;
      direction ← lift (tuple_of pv);
      api_run (edit_attributes elem {[ "DirectionRatios" := VNums direction ]});;
      mret (Some true)
    else mret None).

(** The loop body shared by the branches [prop == "RectangleLength"]
    (attribute [XDim]) and [prop == "RectangleWidth"] (attribute [YDim]),
    which differ in the name of the edited attribute only. *)
Definition edit_Rectangle (dim : string) (scaling : Q) (prop : string) (rep : entity)
    : M (option bool) :=
  single_body_item rep (λ item,
    if is_a item "IfcExtrudedAreaSolid" then
      elem ← lift (attr_entity item "SweptArea");
      if is_a elem "IfcRectangleProfileDef" then
        pv ← getattr prop;
        q ← lift (Value_of pv);
        let value := (q * scaling)%Q in
        api_run (edit_attributes elem {[ dim := VNum value ]});;
        mret (Some true)
      else mret None
    else mret None).

(** [l[i]] *)
Definition index {A : Type} (l : list A) (i : nat) : outcome A :=
  match l !! i with
  | Some a => Ok a
  | None => Raise IndexError
  end.

(** [p.Dim] of a cartesian point: the number of its coordinates (a derived
    attribute of the schema). *)
Definition Dim (p : entity) : outcome nat :=
  c ← attr_nums p "Coordinates"; mret (length c).

(** An aggregate attribute of an entity is read as a tuple (the pull relies
    on it in [p + (0,)]), and so is [elem.Points]: [elem_points.append(p)]
    and [elem_points.pop()] raise, a tuple has neither method. *)
Definition append {A : Type} (t : list A) (a : A) : outcome (list A) :=
  Raise (AttributeError OnTuple).

Definition pop {A : Type} (t : list A) : outcome (list A * A) :=
  Raise (AttributeError OnTuple).

(** [for i in range(n): p = create_entity(...); elem_points.append(p)] *)
Fixpoint append_new_points (f : file) (n : nat) (elem_points : list entity)
    : M (list entity) :=
  match n with
  | O => mret elem_points
  | S n' =>
      p ← api_create_entity f "IfcCartesianPoint";
      elem_points ← lift (append elem_points p);
      append_new_points f n' elem_points
  end.

(** [for i in range(n): rest.append(elem_points.pop())] *)
Fixpoint pop_points (n : nat) (elem_points rest : list entity)
    : outcome (list entity * list entity) :=
  match n with
  | O => Ok (elem_points, rest)
  | S n' =>
      '(elem_points', r) ← pop elem_points;
      pop_points n' elem_points' (rest ++ [r])
  end.

(** The body of [for i in range(len(points))]. *)
Definition edit_point (scaling : Q) (psize : nat) (points : list Vector)
    (elem_points : list entity) (i : nat) : M unit :=
  pt ← lift (index points i);
  let v := multiply pt scaling in
  let coord := take psize (tuple v) in
  product ← lift (index elem_points i);
  api_run (edit_attributes product {[ "Coordinates" := VNums coord ]}).

(** The loop body of the branch [prop == "PolylinePoints"]. *)
Definition edit_PolylinePoints (ifcfile : option file) (scaling : Q)
    (prop : string) (rep : entity) : M (option bool) :=
  single_body_item rep (λ item,
    if is_a item "IfcArbitraryClosedProfileDef" then
      swept ← lift (attr_entity item "SweptArea");
      curve ← lift (attr_entity swept "OuterCurve");
      if is_a curve "IfcPolyline" then
        let elem := curve in
        elem_points ← lift (attr_entities elem "Points");
        p0 ← lift (index elem_points 0);
        psize ← lift (Dim p0);
        pv ← getattr prop;
        points ← lift (vectors_of pv);
        elem_points ←
          (if bool_decide (length elem_points < length points)%nat then
             f ← lift (match ifcfile with Some f => Ok f | None => Raise (AttributeError OnNone) end);
             elem_points ← append_new_points f (length points - length elem_points) elem_points;
             api_run (assign_attribute elem "Points" (VEnts elem_points));;
             mret elem_points
           else if bool_decide (length points < length elem_points)%nat then
             '(elem_points, rest) ←
               lift (pop_points (length elem_points - length points) elem_points []);
             api_run (assign_attribute elem "Points" (VEnts elem_points));;
             for_each (λ r, api_run (remove_product r)) rest;;
             mret elem_points
           else mret elem_points) : M (list entity);
        if bool_decide (length points = length elem_points) then
          for_each (edit_point scaling psize points elem_points) (seq 0 (length points));;
          mret (Some true)
        else mret None
      else mret None
    else mret None).

Section Geometry.

(** The helpers of [ifc_tools] are not among the sources: they are
    parameters of the development. *)
Variable get_ifc_element : DocumentObject → option entity.
Variable has_representation : option entity → bool.
Variable get_ifcfile : DocumentObject → option file.

Definition add_geom_properties : M unit :=
  obj ← get_obj;
  let element := get_ifc_element obj in
  if negb (has_representation element) then mret () else
  let ifcfile := get_ifcfile obj in
  scaling ← lift (calculate_unit_scale ifcfile);
  let scaling := pull_scaling scaling in
  reps ← lift (representations element);
  for_each (add_geom_rep scaling) reps.

(** The chain [if prop == ...: for rep in ...] of [set_geom_property];
    [None] when no branch returned. *)
Definition set_geom_dispatch (element : option entity) (ifcfile : option file)
    (scaling : Q) (prop : string) : M (option bool) :=
  if String.eqb prop "ExtrusionDepth" then
    reps ← lift (representations element);
    for_return (edit_ExtrusionDepth scaling prop) reps
  else if String.eqb prop "ExtrusionDirection" then
    reps ← lift (representations element);
    for_return (edit_ExtrusionDirection prop) reps
  else if String.eqb prop "RectangleLength" then
    reps ← lift (representations element);
    for_return (edit_Rectangle "XDim" scaling prop) reps
  else if String.eqb prop "RectangleWidth" then
    reps ← lift (representations element);
    for_return (edit_Rectangle "YDim" scaling prop) reps
  else if String.eqb prop "PolylinePoints" then
    reps ← lift (representations element);
    for_return (edit_PolylinePoints ifcfile scaling prop) reps
  else mret None.

(** The debug [print] evaluates [obj.Label], which every document object
    has, and [getattr(obj, prop)], and writes to the console, which is not
    part of the world. *)
Definition set_geom_property (prop : string) : M bool :=
  obj ← get_obj;
  let element := get_ifc_element obj in
  if negb (has_representation element) then mret false else
  let ifcfile := get_ifcfile obj in
  scaling ← lift (calculate_unit_scale ifcfile);
  scaling ← lift (push_scaling scaling);
  _ ← getattr prop;
  r ← set_geom_dispatch element ifcfile scaling prop;
  mret (default false r).

End Geometry.

(** ** The view provider [ifc_vp_object] *)

Record ViewObject : Type := mkViewObject { vobj_Object : DocumentObject }.

(** The instance state: [self.Object], set by [attach]. *)
Record ifc_vp_object : Type := mk_ifc_vp_object { Object : option DocumentObject }.

(** A slot connected to [triggered]: the only one is the bound method
    [self.revealChildren]. *)
Inductive slot : Type :=
| revealChildren_of (self : ifc_vp_object).

Record QAction : Type := mkQAction {
  action_icon : string;
  action_text : string;
  action_triggered : list slot
}.

Definition attach (self : ifc_vp_object) (vobj : ViewObject) : ifc_vp_object :=
  mk_ifc_vp_object (Some (vobj_Object vobj)).

Definition getDisplayModes (self : ifc_vp_object) (obj : ViewObject)
    : list string * ifc_vp_object := ([], self).

Definition getDefaultDisplayMode (self : ifc_vp_object) : string * ifc_vp_object :=
  ("FlatLines", self).

Definition setDisplayMode (self : ifc_vp_object) (mode : string)
    : string * ifc_vp_object := (mode, self).

Definition onChanged (self : ifc_vp_object) (vobj : ViewObject) (prop : string)
    : unit * ifc_vp_object := ((), self).

Definition updateData (self : ifc_vp_object) (obj : DocumentObject) (prop : string)
    : unit * ifc_vp_object := ((), self).

(** The separator of paths, [/]. *)
Definition sep : Ascii.ascii := Ascii.ascii_of_nat 47.

(** [b.startswith(sep)] and [a.endswith(sep)] *)
Definition startswith_sep (b : string) : bool :=
  match b with
  | String c _ => Ascii.eqb c sep
  | EmptyString => false
  end.

Fixpoint endswith_sep (a : string) : bool :=
  match a with
  | EmptyString => false
  | String c EmptyString => Ascii.eqb c sep
  | String _ a' => endswith_sep a'
  end.

(** [os.path.join(a, b)] of [posixpath]: an absolute [b] stands alone; an
    empty [a], or one that ends with the separator, takes [b] as it is;
    otherwise the separator comes between them. *)
Definition path_join (a b : string) : string :=
  if startswith_sep b then b
  else
    match a with
    | EmptyString => b
    | _ => if endswith_sep a then a +:+ b else a +:+ "/" +:+ b
    end.

(** [os.path.join(a, b, c)] *)
Definition path_join3 (a b c : string) : string :=
  path_join (path_join a b) c.

Section ViewProvider.

(** [os.path.dirname(os.path.dirname(__file__))], fixed at installation. *)
Variable module_dir : string.

(** The helpers of [ifc_tools]; a file object is true, a list of children
    is true when it is not empty. *)
Variable get_ifcfile : DocumentObject → option file.
Variable get_children : DocumentObject → file → list entity.

Definition getIcon (self : ifc_vp_object) : string :=
  path_join3 module_dir "icons" "IFC_object.svg".

Definition hasChildren (self : ifc_vp_object) (obj : DocumentObject) : bool :=
  match get_ifcfile obj with
  | Some ifcfile =>
      match get_children obj ifcfile with
      | [] => false
      | _ :: _ => true
      end
  | None => false
  end.

(** The action built by [setupContextMenu]. *)
Definition reveal_action (self : ifc_vp_object) : QAction :=
  let path := module_dir in
  let icon := path_join3 path "icons" "IFC.svg" in
  mkQAction icon "Reveal children" [revealChildren_of self].

(** [menu.addAction] appends to the actions of the menu. *)
Definition setupContextMenu (self : ifc_vp_object) (vobj : ViewObject)
    (menu : list QAction) : list QAction :=
  if hasChildren self (vobj_Object vobj)
  then menu ++ [reveal_action self]
  else menu.

End ViewProvider.

(** * Vocabulary of the statements *)

(** ** Frames *)

Definition keeps_journal {A : Type} (m : M A) : Prop :=
  ∀ w, w_journal (m w).2 = w_journal w.

Definition keeps_obj {A : Type} (m : M A) : Prop :=
  ∀ w, w_obj (m w).2 = w_obj w.

(** The document object keeps its identity and label: only its properties
    are written. *)
Definition keeps_identity {A : Type} (m : M A) : Prop :=
  ∀ w, Name (w_obj (m w).2) = Name (w_obj w) ∧ Label (w_obj (m w).2) = Label (w_obj w).

(** ** Laziness *)

Definition geometry_properties : gset string :=
  {[ "ExtrusionDepth"; "ExtrusionDirection"; "RectangleLength";
     "RectangleWidth"; "PolylinePoints" ]}.

(** An outcome that is not an error of the host's property system: neither
    the refusal of [addProperty] for a name in use, nor the failure of an
    assignment to a property that does not exist. *)
Definition clean {A : Type} (r : outcome A) : Prop :=
  r ≠ Raise NameError ∧ r ≠ Raise (AttributeError OnDocumentObject).

(** A computation is lazy under the properties [P] when, started on any
    object that has the properties [P], its outcome is one and the same clean
    outcome, and its only effect on the set of property names is to add a
    fixed set [T] of geometry properties. *)
Definition lazy {A : Type} (P : gset string) (m : M A) : Prop :=
  ∃ (r : outcome A) (T : gset string),
    clean r ∧ T ⊆ geometry_properties ∧
    ∀ w, P ⊆ PropertiesList (w_obj w) →
      (m w).1 = r ∧
      PropertiesList (w_obj (m w).2) = PropertiesList (w_obj w) ∪ T.

Section PullFrom.

Variable has_representation : option entity → bool.

(** What [add_geom_properties] does once the element and the file of the
    object are known. *)
Definition pull_from (element : option entity) (ifcfile : option file) : M unit :=
  if negb (has_representation element) then mret () else
  scaling ← lift (calculate_unit_scale ifcfile);
  reps ← lift (representations element);
  for_each (add_geom_rep (pull_scaling scaling)) reps.

End PullFrom.

(** ** States reached by the host primitives *)

(** The world after [ensure_property t name]. *)
Definition ensured (t : ptype) (name : string) (w : world) : world :=
  match props (w_obj w) !! name with
  | Some _ => w
  | None =>
      mkWorld (with_props (w_obj w) (<[name := default_value t]> (props (w_obj w))))
              (w_journal w)
  end.

(** The world after a successful [setattr name v]. *)
Definition assigned (name : string) (v : pvalue) (w : world) : world :=
  mkWorld (with_props (w_obj w) (<[name := v]> (props (w_obj w)))) (w_journal w).

(** The world after [api_run e]. *)
Definition journaled (e : ifc_effect) (w : world) : world :=
  mkWorld (w_obj w) (w_journal w ++ [e]).

(** ** Shapes of representations *)

(** The item the pull loop acts on: the single item of a ["Body"]
    representation, when it is an extruded solid. *)
Definition extrusion_of (rep : entity) : outcome (option entity) :=
  item ← body_item rep;
  mret (match item with
        | Some ext => if is_a ext "IfcExtrudedAreaSolid" then Some ext else None
        | None => None
        end).

(** A representation the pull loop passes over. *)
Definition skipped (rep : entity) : bool :=
  match extrusion_of rep with
  | Ok None => true
  | _ => false
  end.

(** Typing by the schema, as far as the loops rely on it: a representation
    has an identifier and, when it is the body, a list of items; an item is
    a representation item, not a profile definition; an extruded solid has a
    swept area. *)
Definition well_typed_item (item : entity) : bool :=
  negb (is_a item "IfcArbitraryClosedProfileDef") &&
  (if is_a item "IfcExtrudedAreaSolid"
   then match attr_entity item "SweptArea" with Ok _ => true | Raise _ => false end
   else true).

Definition well_typed_rep (rep : entity) : bool :=
  match body_item rep with
  | Ok (Some item) => well_typed_item item
  | Ok None => true
  | Raise _ => false
  end.

(** The swept area of the item is of the class [cls]. *)
Definition swept_is (item : entity) (cls : string) : bool :=
  match attr_entity item "SweptArea" with
  | Ok swept => is_a swept cls
  | Raise _ => false
  end.

(** The swept area of the item is a closed profile whose outer curve is a
    polyline. *)
Definition swept_is_polyline (item : entity) : bool :=
  match attr_entity item "SweptArea" with
  | Ok swept =>
      is_a swept "IfcArbitraryClosedProfileDef" &&
      match attr_entity swept "OuterCurve" with
      | Ok curve => is_a curve "IfcPolyline"
      | Raise _ => false
      end
  | Raise _ => false
  end.

(** The shape class of the item is the one the property belongs to: any
    extrusion for the depth and the direction, an extrusion of a rectangle
    for the rectangle dimensions, an extrusion of a closed polyline for the
    polyline points. *)
Definition shape_matches (prop : string) (item : entity) : bool :=
  is_a item "IfcExtrudedAreaSolid" &&
  (if String.eqb prop "ExtrusionDepth" then true
   else if String.eqb prop "ExtrusionDirection" then true
   else if String.eqb prop "RectangleLength" then swept_is item "IfcRectangleProfileDef"
   else if String.eqb prop "RectangleWidth" then swept_is item "IfcRectangleProfileDef"
   else if String.eqb prop "PolylinePoints" then swept_is_polyline item
   else false).

(** A representation whose shape class does not match the property: it is
    not a body with a single item, or the item is of another shape class. *)
Definition mismatch (prop : string) (rep : entity) : bool :=
  match body_item rep with
  | Ok (Some item) => negb (shape_matches prop item)
  | _ => true
  end.

(** The vector a point with exactly two coordinates is pulled to. *)
Definition flat_point (s : Q) (c : list Q) : option Vector :=
  match c with
  | [x; y] => Some (mkVector (x * s) (y * s) (0 * s))
  | _ => None
  end.

(** ** Sample data: a wall whose body is an extruded profile *)

Module Sample.

#[local] Open Scope Q_scope.

Definition item_classes (c : string) : list string :=
  [c; "IfcGeometricRepresentationItem"; "IfcRepresentationItem"].

Definition point (id : nat) (coords : list Q) : entity :=
  Entity id ("IfcCartesianPoint" :: item_classes "IfcPoint")
         [("Coordinates", VNums coords)].

Definition direction (id : nat) (ratios : list Q) : entity :=
  Entity id (item_classes "IfcDirection") [("DirectionRatios", VNums ratios)].

Definition polyline (id : nat) (pts : list entity) : entity :=
  Entity id ("IfcPolyline" :: "IfcBoundedCurve" :: item_classes "IfcCurve")
         [("Points", VEnts pts)].

Definition rectangle (id : nat) (x y : Q) : entity :=
  Entity id ["IfcRectangleProfileDef"; "IfcParameterizedProfileDef"; "IfcProfileDef"]
         [("ProfileType", VStr "AREA"); ("ProfileName", VNull); ("Position", VNull);
          ("XDim", VNum x); ("YDim", VNum y)].

Definition closed_profile (id : nat) (curve : entity) : entity :=
  Entity id ["IfcArbitraryClosedProfileDef"; "IfcProfileDef"]
         [("ProfileType", VStr "AREA"); ("ProfileName", VNull);
          ("OuterCurve", VEnt curve)].

Definition extrusion (id : nat) (swept dir : entity) (depth : Q) : entity :=
  Entity id ("IfcExtrudedAreaSolid" :: "IfcSweptAreaSolid" :: item_classes "IfcSolidModel")
         [("SweptArea", VEnt swept); ("Position", VNull);
          ("ExtrudedDirection", VEnt dir); ("Depth", VNum depth)].

Definition shape_representation (id : nat) (ident : string) (items : list entity)
    : entity :=
  Entity id ["IfcShapeRepresentation"; "IfcShapeModel"; "IfcRepresentation"]
         [("ContextOfItems", VNull); ("RepresentationIdentifier", VStr ident);
          ("RepresentationType", VNull); ("Items", VEnts items)].

Definition product (id : nat) (reps : list entity) : entity :=
  Entity id ["IfcWall"; "IfcBuildingElement"; "IfcElement"; "IfcProduct";
             "IfcObject"; "IfcObjectDefinition"; "IfcRoot"]
         [("Name", VStr "Wall");
          ("Representation",
           VEnt (Entity (S id) ["IfcProductDefinitionShape"; "IfcProductRepresentation"]
                        [("Representations", VEnts reps)]))].

(** A product without a representation. *)
Definition bare_product (id : nat) : entity :=
  Entity id ["IfcWall"; "IfcBuildingElement"; "IfcElement"; "IfcProduct";
             "IfcObject"; "IfcObjectDefinition"; "IfcRoot"]
         [("Name", VStr "Wall"); ("Representation", VNull)].

Definition up : entity := direction 10 [0; 0; 1].
Definition axis : entity :=
  shape_representation 30 "Axis" [polyline 31 [point 32 [0; 0]; point 33 [4; 0]]].

(** A product with an axis and no body, and one without a representation. *)
Definition axis_only : entity := product 11 [axis].
Definition unplaced : entity := bare_product 9.

(** A wall extruded from a 5 x 0.2 rectangle, 3 high. *)
Definition rect_profile : entity := rectangle 42 5 (1 # 5).
Definition rect_solid : entity := extrusion 41 rect_profile up 3.
Definition rect_body : entity := shape_representation 40 "Body" [rect_solid].
Definition rect_wall : entity := product 1 [axis; rect_body].

(** A slab extruded from a triangle given by two-dimensional points. *)
Definition tri_coords : list (list Q) := [[0; 0]; [4; 0]; [4; 3]].
Definition tri_points : list entity :=
  [point 53 [0; 0]; point 54 [4; 0]; point 55 [4; 3]].
Definition triangle : entity := polyline 52 tri_points.
Definition tri_profile : entity := closed_profile 56 triangle.
Definition tri_solid : entity := extrusion 51 tri_profile up 2.
Definition tri_body : entity := shape_representation 50 "Body" [tri_solid].
Definition tri_slab : entity := product 3 [tri_body].

(** The same slab, the last point of its outline written with three
    coordinates. *)
Definition triangle3 : entity :=
  polyline 62 [point 63 [0; 0]; point 64 [4; 0]; point 65 [4; 3; 0]].
Definition tri3_body : entity :=
  shape_representation 60 "Body" [extrusion 61 (closed_profile 66 triangle3) up 2].
Definition tri3_slab : entity := product 5 [tri3_body].

(** A wall with two body representations. *)
Definition rect_body2 : entity :=
  shape_representation 70 "Body" [extrusion 71 (rectangle 72 7 (1 # 2)) up 9].
Definition two_body_wall : entity := product 7 [axis; rect_body; rect_body2].

(** Stand-ins for the helpers of [ifc_tools]. *)
Definition element_is (e : option entity) : DocumentObject → option entity := λ _, e.

Definition has_representation (element : option entity) : bool :=
  match element with
  | Some e =>
      match ifc_getattr e "Representation" with
      | Ok (VEnt _) => true
      | _ => false
      end
  | None => false
  end.

(** A file in millimetres, and its pull factor. *)
Definition mm_file : file := mkFile (1 # 1000) 100.
Definition mm : Q := (1 # 1000) * 1000.
Definition file_is (f : option file) : DocumentObject → option file := λ _, f.

(** Further attributes of a document object of the host. *)
Definition host_attributes : gset string :=
  {[ "Document"; "ViewObject"; "Proxy"; "getGroupOfProperty"; "removeProperty" ]}.

Definition fresh_obj : DocumentObject :=
  mkDocumentObject "Wall" "Wall" {[ "Label" := POther "Wall" ]} host_attributes.

Definition fresh_world : world := mkWorld fresh_obj [].

(** The helpers for an object of the rectangular wall. *)
Definition wall_element : DocumentObject → option entity := element_is (Some rect_wall).
Definition mm_ifcfile : DocumentObject → option file := file_is (Some mm_file).

(** The two directions on an element of a file in millimetres. *)
Definition pull (e : entity) : M unit :=
  add_geom_properties (element_is (Some e)) has_representation (file_is (Some mm_file)).
Definition push (e : entity) (prop : string) : M bool :=
  set_geom_property (element_is (Some e)) has_representation (file_is (Some mm_file)) prop.

(** The world after the first pull of an element. *)
Definition pulled (e : entity) : world := (pull e fresh_world).2.

(** A slab whose outline was given a fourth point in the host. *)
Definition four_points : list Vector :=
  [mkVector 0 0 0; mkVector 4000 0 0; mkVector 4000 3000 0; mkVector 0 3000 0].
Definition edited_outline : world :=
  mkWorld (mkDocumentObject "Slab" "Slab" {[ "PolylinePoints" := PVectorList four_points ]}
                            host_attributes)
          [].

(** The scale of the push in a file in millimetres. *)
Definition mm_push : Q := push_factor (1 # 1000).

(** A storey that decomposes into the wall, and a view provider on it. *)
Definition children_of (obj : DocumentObject) (f : file) : list entity :=
  if String.eqb (Name obj) "Storey" then [rect_wall] else [].
Definition storey : DocumentObject :=
  mkDocumentObject "Storey" "Level 1" ∅ host_attributes.
Definition storey_vp : ifc_vp_object := mk_ifc_vp_object (Some storey).

(** The parts of the slab with a point of three coordinates, and of the
    second body of the wall with two bodies. *)
Definition tri3_points : list entity :=
  [point 63 [0; 0]; point 64 [4; 0]; point 65 [4; 3; 0]].
Definition tri3_coords : list (list Q) := [[0; 0]; [4; 0]; [4; 3; 0]].
Definition tri3_solid : entity := extrusion 61 (closed_profile 66 triangle3) up 2.
Definition rect_profile2 : entity := rectangle 72 7 (1 # 2).
Definition rect_solid2 : entity := extrusion 71 rect_profile2 up 9.

(** A file whose unit scale is zero. *)
Definition null_file : file := mkFile 0 100.

(** A host document as the list of the objects created in it, and the
    helper that creates the children of an object there. *)
Definition make_children (obj : DocumentObject) (f : file)
    (doc : list DocumentObject) : list DocumentObject :=
  doc ++ map (λ e, mkDocumentObject ("Child of " +:+ Name obj) "Wall" ∅ host_attributes)
             (children_of obj f).

(** A wall whose extruded direction is written with two ratios. *)
Definition flat_direction : entity := direction 12 [0; 1].
Definition flat_solid : entity := extrusion 91 rect_profile flat_direction 3.
Definition flat_body : entity := shape_representation 90 "Body" [flat_solid].
Definition flat_wall : entity := product 13 [flat_body].

End Sample.

(** ** Settled properties *)

(** The world in which the properties [A] have been assigned and the
    properties [D] have been created at their defaults where they were
    missing: an assignment overrides what the object had, what the object
    had overrides a default. *)
Definition settled (A D : gmap string pvalue) (w : world) : world :=
  mkWorld (with_props (w_obj w) (A ∪ (props (w_obj w) ∪ D))) (w_journal w).

(** A computation settles the geometry properties when, started on any
    object that has the properties [P], it ends with one and the same
    outcome and its whole effect on the world is to assign fixed values [A]
    and to create fixed defaults [D], all of them geometry properties. *)
Definition settles {X : Type} (P : gset string) (m : M X) : Prop :=
  ∃ (r : outcome X) (A D : gmap string pvalue),
    dom A ⊆ geometry_properties ∧ dom D ⊆ geometry_properties ∧
    ∀ w, P ⊆ PropertiesList (w_obj w) → m w = (r, settled A D w).

(** ** Outcomes of a push *)

(** What a loop of the push may have done to the world [w]: nothing, with
    or without an exception, or exactly one [edit_attributes] together with
    the result [True]. *)
Definition edits_once (w : world) (r : outcome (option bool) * world) : Prop :=
  r = (Ok None, w) ∨
  (∃ e, r = (Raise e, w)) ∨
  (∃ product attributes,
     r = (Ok (Some true), journaled (edit_attributes product attributes) w)).

(** ** Extrusions of a rectangle *)

(** The extruded solid [ext] has the depth [depth], the direction entity
    [dir] of ratios [v] and the swept area [swept], a rectangle of
    dimensions [x] and [y]. *)
Definition rectangle_extrusion (ext dir swept : entity) (depth : Q) (v : Vector)
    (x y : Q) : Prop :=
  attr_num ext "Depth" = Ok depth ∧
  attr_entity ext "ExtrudedDirection" = Ok dir ∧
  attr_nums dir "DirectionRatios" = Ok (tuple v) ∧
  attr_entity ext "SweptArea" = Ok swept ∧
  is_a swept "IfcRectangleProfileDef" = true ∧
  attr_num swept "XDim" = Ok x ∧
  attr_num swept "YDim" = Ok y.

(** ** Extrusions of a closed polyline *)

(** The extruded solid [ext] has a depth and a direction of three ratios,
    and its swept area is a closed profile (not a rectangle) whose outer
    curve is the polyline of the points [pts], of coordinates [coords]. *)
Definition polyline_extrusion (ext : entity) (pts : list entity)
    (coords : list (list Q)) : Prop :=
  ∃ depth dir v swept curve,
    attr_num ext "Depth" = Ok depth ∧
    attr_entity ext "ExtrudedDirection" = Ok dir ∧
    attr_nums dir "DirectionRatios" = Ok (tuple v) ∧
    attr_entity ext "SweptArea" = Ok swept ∧
    is_a swept "IfcRectangleProfileDef" = false ∧
    is_a swept "IfcArbitraryClosedProfileDef" = true ∧
    attr_entity swept "OuterCurve" = Ok curve ∧
    is_a curve "IfcPolyline" = true ∧
    attr_entities curve "Points" = Ok pts ∧
    omap_list (λ p, attr_nums p "Coordinates") pts = Ok coords.

(** ** The slot of the context menu *)

Section RevealChildren.

(** The host document in which children are created, and the helpers of
    [ifc_tools] that [revealChildren] calls. *)
Variable document : Type.
Variable get_ifcfile : DocumentObject → option file.
Variable create_children : DocumentObject → file → document → document.

(** [revealChildren(self)]: [None] stands for the [AttributeError] of
    [self.Object] on a provider that [attach] never ran on; otherwise the
    document after the call, which [create_children] changes only when the
    object has a file. *)
Definition revealChildren (self : ifc_vp_object) (doc : document) : option document :=
  match Object self with
  | Some obj =>
      match get_ifcfile obj with
      | Some ifcfile => Some (create_children obj ifcfile doc)
      | None => Some doc
      end
  | None => None
  end.

End RevealChildren.
(** * Properties *)

(** ** Running the monad *)

Lemma run_bind {A B : Type} (m : M A) (f : A → M B) (w : world) :
  (m ≫= f) w =
  match m w with
  | (Ok a, w') => f a w'
  | (Raise e, w') => (Raise e, w')
  end.
Proof. reflexivity. Qed.

Lemma run_ret {A : Type} (a : A) (w : world) : (mret a : M A) w = (Ok a, w).
Proof. reflexivity. Qed.

Lemma run_lift_ok {A B : Type} (x : outcome A) (a : A) (f : A → M B) (w : world) :
  x = Ok a → (lift x ≫= f) w = f a w.
Proof. intros ->. reflexivity. Qed.

Lemma run_lift_raise {A B : Type} (x : outcome A) (e : exn) (f : A → M B) (w : world) :
  x = Raise e → (lift x ≫= f) w = (Raise e, w).
Proof. intros ->. reflexivity. Qed.

(** ** Frames: what each direction leaves alone *)

Section Frames.

Context {A B : Type}.

Lemma keeps_journal_bind (m : M A) (f : A → M B) :
  keeps_journal m → (∀ a, keeps_journal (f a)) → keeps_journal (m ≫= f).
Proof.
  intros Hm Hf w. rewrite run_bind. specialize (Hm w).
  destruct (m w) as [[a|e] w']; simpl in *; [|exact Hm].
  rewrite Hf. exact Hm.
Qed.

Lemma keeps_obj_bind (m : M A) (f : A → M B) :
  keeps_obj m → (∀ a, keeps_obj (f a)) → keeps_obj (m ≫= f).
Proof.
  intros Hm Hf w. rewrite run_bind. specialize (Hm w).
  destruct (m w) as [[a|e] w']; simpl in *; [|exact Hm].
  rewrite Hf. exact Hm.
Qed.

Lemma keeps_identity_bind (m : M A) (f : A → M B) :
  keeps_identity m → (∀ a, keeps_identity (f a)) → keeps_identity (m ≫= f).
Proof.
  intros Hm Hf w. rewrite run_bind. specialize (Hm w).
  destruct (m w) as [[a|e] w']; simpl in *; [|exact Hm].
  destruct (Hf a w') as [-> ->]. exact Hm.
Qed.

Lemma keeps_journal_ret (a : A) : keeps_journal (mret a : M A).
Proof. intros w. reflexivity. Qed.

Lemma keeps_obj_ret (a : A) : keeps_obj (mret a : M A).
Proof. intros w. reflexivity. Qed.

Lemma keeps_identity_ret (a : A) : keeps_identity (mret a : M A).
Proof. intros w. split; reflexivity. Qed.

Lemma keeps_journal_lift (x : outcome A) : keeps_journal (lift x).
Proof. intros w. reflexivity. Qed.

Lemma keeps_obj_lift (x : outcome A) : keeps_obj (lift x).
Proof. intros w. reflexivity. Qed.

Lemma keeps_identity_lift (x : outcome A) : keeps_identity (lift x).
Proof. intros w. split; reflexivity. Qed.

End Frames.

Lemma keeps_journal_get_obj : keeps_journal get_obj.
Proof. intros w. reflexivity. Qed.

Lemma keeps_obj_get_obj : keeps_obj get_obj.
Proof. intros w. reflexivity. Qed.

Lemma keeps_identity_get_obj : keeps_identity get_obj.
Proof. intros w. split; reflexivity. Qed.

Lemma keeps_obj_getattr (name : string) : keeps_obj (getattr name).
Proof. intros w. unfold getattr. destruct (attribute (w_obj w) name); reflexivity. Qed.

Lemma keeps_obj_api_run (e : ifc_effect) : keeps_obj (api_run e).
Proof. intros w. reflexivity. Qed.

Lemma keeps_obj_api_create_entity (f : file) (c : string) :
  keeps_obj (api_create_entity f c).
Proof.
  intros w. unfold api_create_entity.
  destruct (String.eqb c "IfcCartesianPoint"); reflexivity.
Qed.

Lemma keeps_journal_addProperty (t : ptype) (name group : string) :
  keeps_journal (addProperty t name group).
Proof. intros w. unfold addProperty. destruct (props (w_obj w) !! name); reflexivity. Qed.

Lemma keeps_identity_addProperty (t : ptype) (name group : string) :
  keeps_identity (addProperty t name group).
Proof.
  intros w. unfold addProperty. destruct (props (w_obj w) !! name); split; reflexivity.
Qed.

Lemma keeps_journal_setattr (name : string) (v : pvalue) : keeps_journal (setattr name v).
Proof. intros w. unfold setattr. destruct (props (w_obj w) !! name); reflexivity. Qed.

Lemma keeps_identity_setattr (name : string) (v : pvalue) :
  keeps_identity (setattr name v).
Proof.
  intros w. unfold setattr. destruct (props (w_obj w) !! name); split; reflexivity.
Qed.

Lemma keeps_journal_in_PropertiesList (name : string) :
  keeps_journal (in_PropertiesList name).
Proof. intros w. reflexivity. Qed.

Lemma keeps_identity_in_PropertiesList (name : string) :
  keeps_identity (in_PropertiesList name).
Proof. intros w. split; reflexivity. Qed.

Lemma keeps_journal_for_each {A : Type} (body : A → M unit) (l : list A) :
  (∀ a, keeps_journal (body a)) → keeps_journal (for_each body l).
Proof.
  intros Hb. induction l as [|a l IH]; simpl.
  - apply keeps_journal_ret.
  - apply keeps_journal_bind; [apply Hb | intros _; exact IH].
Qed.

Lemma keeps_identity_for_each {A : Type} (body : A → M unit) (l : list A) :
  (∀ a, keeps_identity (body a)) → keeps_identity (for_each body l).
Proof.
  intros Hb. induction l as [|a l IH]; simpl.
  - apply keeps_identity_ret.
  - apply keeps_identity_bind; [apply Hb | intros _; exact IH].
Qed.

Lemma keeps_obj_for_each {A : Type} (body : A → M unit) (l : list A) :
  (∀ a, keeps_obj (body a)) → keeps_obj (for_each body l).
Proof.
  intros Hb. induction l as [|a l IH]; simpl.
  - apply keeps_obj_ret.
  - apply keeps_obj_bind; [apply Hb | intros _; exact IH].
Qed.

Lemma keeps_obj_for_return {A R : Type} (body : A → M (option R)) (l : list A) :
  (∀ a, keeps_obj (body a)) → keeps_obj (for_return body l).
Proof.
  intros Hb. induction l as [|a l IH]; simpl.
  - apply keeps_obj_ret.
  - apply keeps_obj_bind; [apply Hb |].
    intros [r|]; [apply keeps_obj_ret | exact IH].
Qed.

Lemma keeps_obj_append_new_points (f : file) (n : nat) (l : list entity) :
  keeps_obj (append_new_points f n l).
Proof.
  revert l. induction n as [|n IH]; intros l; simpl.
  - apply keeps_obj_ret.
  - apply keeps_obj_bind; [apply keeps_obj_api_create_entity | intros p].
    apply keeps_obj_bind; [apply keeps_obj_lift | intros l'; apply IH].
Qed.

(** One step of a frame proof: split a bind, close a primitive, or branch
    on the scrutinee of a conditional. *)
Ltac frame_step :=
  match goal with
  | |- keeps_journal (_ ≫= _) => apply keeps_journal_bind; [|intros ?]
  | |- keeps_obj (_ ≫= _) => apply keeps_obj_bind; [|intros ?]
  | |- keeps_identity (_ ≫= _) => apply keeps_identity_bind; [|intros ?]
  | |- keeps_journal (mret _) => apply keeps_journal_ret
  | |- keeps_obj (mret _) => apply keeps_obj_ret
  | |- keeps_identity (mret _) => apply keeps_identity_ret
  | |- keeps_journal (lift _) => apply keeps_journal_lift
  | |- keeps_obj (lift _) => apply keeps_obj_lift
  | |- keeps_identity (lift _) => apply keeps_identity_lift
  | |- keeps_journal (addProperty _ _ _) => apply keeps_journal_addProperty
  | |- keeps_identity (addProperty _ _ _) => apply keeps_identity_addProperty
  | |- keeps_journal (setattr _ _) => apply keeps_journal_setattr
  | |- keeps_identity (setattr _ _) => apply keeps_identity_setattr
  | |- keeps_journal (in_PropertiesList _) => apply keeps_journal_in_PropertiesList
  | |- keeps_identity (in_PropertiesList _) => apply keeps_identity_in_PropertiesList
  | |- keeps_journal get_obj => apply keeps_journal_get_obj
  | |- keeps_obj get_obj => apply keeps_obj_get_obj
  | |- keeps_identity get_obj => apply keeps_identity_get_obj
  | |- keeps_obj (getattr _) => apply keeps_obj_getattr
  | |- keeps_obj (api_run _) => apply keeps_obj_api_run
  | |- keeps_obj (append_new_points _ _ _) => apply keeps_obj_append_new_points
  | |- keeps_obj (for_each _ _) => apply keeps_obj_for_each; intros ?
  | |- keeps_obj (for_return _ _) => apply keeps_obj_for_return; intros ?
  | |- keeps_journal (for_each _ _) => apply keeps_journal_for_each; intros ?
  | |- keeps_identity (for_each _ _) => apply keeps_identity_for_each; intros ?
  | |- context [if ?b then _ else _] => destruct b
  | |- context [match ?x with _ => _ end] => destruct x
  end.

Ltac frame := repeat frame_step.

Lemma keeps_journal_add_geom_rep (scaling : Q) (rep : entity) :
  keeps_journal (add_geom_rep scaling rep).
Proof.
  unfold add_geom_rep, add_extrusion_properties, ensure_property, when. frame.
Qed.

Lemma keeps_identity_add_geom_rep (scaling : Q) (rep : entity) :
  keeps_identity (add_geom_rep scaling rep).
Proof.
  unfold add_geom_rep, add_extrusion_properties, ensure_property, when. frame.
Qed.

Lemma keeps_obj_edit_PolylinePoints (f : option file) (scaling : Q) (prop : string)
    (rep : entity) :
  keeps_obj (edit_PolylinePoints f scaling prop rep).
Proof.
  unfold edit_PolylinePoints, single_body_item, edit_point. frame.
Qed.

Lemma keeps_obj_set_geom_dispatch (element : option entity) (f : option file)
    (scaling : Q) (prop : string) :
  keeps_obj (set_geom_dispatch element f scaling prop).
Proof.
  unfold set_geom_dispatch, edit_ExtrusionDepth, edit_ExtrusionDirection,
    edit_Rectangle, single_body_item.
  repeat (case (String.eqb prop _));
    try (apply keeps_obj_bind; [frame | intros reps; apply keeps_obj_for_return; intros rep]);
    try apply keeps_obj_edit_PolylinePoints; frame.
Qed.

(** [C7] The two directions are disjoint in effect.  For every world, every
    choice of the [ifc_tools] helpers and every property name: the pull-sync
    leaves the journal of the IFC file as it found it and changes nothing of
    the document object but its properties; the push-sync leaves the document
    object as it found it. *)
Theorem sync_directions_disjoint
    (get_ifc_element : DocumentObject → option entity)
    (has_representation : option entity → bool)
    (get_ifcfile : DocumentObject → option file)
    (prop : string) (w : world) :
  let pulled := add_geom_properties get_ifc_element has_representation get_ifcfile w in
  let pushed := set_geom_property get_ifc_element has_representation get_ifcfile prop w in
  w_journal pulled.2 = w_journal w ∧
  Name (w_obj pulled.2) = Name (w_obj w) ∧
  Label (w_obj pulled.2) = Label (w_obj w) ∧
  w_obj pushed.2 = w_obj w.
Proof.
  assert (Hj : keeps_journal
            (add_geom_properties get_ifc_element has_representation get_ifcfile)).
  { unfold add_geom_properties. frame. apply keeps_journal_add_geom_rep. }
  assert (Hi : keeps_identity
            (add_geom_properties get_ifc_element has_representation get_ifcfile)).
  { unfold add_geom_properties. frame. apply keeps_identity_add_geom_rep. }
  assert (Ho : keeps_obj
            (set_geom_property get_ifc_element has_representation get_ifcfile prop)).
  { unfold set_geom_property. frame. apply keeps_obj_set_geom_dispatch. }
  simpl. destruct (Hi w) as [Hn Hl]. auto.
Qed.

(** ** Unit conversion *)

(** [C5] The conversions of the two directions are mutually inverse over the
    rationals: for every length [d] and every unit scale [s] other than zero,
    the push-sync computes a factor [k] (it does not raise), and [d] times
    the pull factor [s * 1000] times [k] is [d] again. *)
Theorem pull_push_inverse (d s : Q) :
  ¬ (s == 0)%Q →
  ∃ k, push_scaling s = Ok k ∧ (d * pull_scaling s * k == d)%Q.
Proof.
  intros Hs. unfold push_scaling.
  destruct (Qeq_bool s 0) eqn:E.
  - apply Qeq_bool_iff in E. contradiction.
  - exists (push_factor s). split; [reflexivity|].
    unfold pull_scaling, push_factor. field. exact Hs.
Qed.

(** ** Lazy creation of the geometry properties *)

Lemma clean_Ok {A : Type} (a : A) : clean (Ok a).
Proof. split; discriminate. Qed.

Lemma clean_Raise {A B : Type} (e : exn) :
  clean (Raise e : outcome A) → clean (Raise e : outcome B).
Proof. intros [H1 H2]. split; intros [= ->]; [apply H1 | apply H2]; reflexivity. Qed.

Lemma clean_obind {A B : Type} (x : outcome A) (f : A → outcome B) :
  clean x → (∀ a, clean (f a)) → clean (x ≫= f).
Proof.
  intros Hx Hf. destruct x as [a|e]; [apply Hf|].
  exact (clean_Raise e Hx).
Qed.

Lemma clean_omap_list {A B : Type} (f : A → outcome B) (l : list A) :
  (∀ a, clean (f a)) → clean (omap_list f l).
Proof.
  intros Hf. induction l as [|a l IH]; simpl; [apply clean_Ok|].
  specialize (Hf a). destruct (f a) as [b|e]; [|exact (clean_Raise e Hf)].
  destruct (omap_list f l) as [bs|e]; [apply clean_Ok | exact (clean_Raise e IH)].
Qed.

Lemma clean_ifc_getattr (e : entity) (name : string) : clean (ifc_getattr e name).
Proof. unfold ifc_getattr. destruct (assoc name (attrs_of e)); split; discriminate. Qed.

Lemma clean_attr_entity (e : entity) (name : string) : clean (attr_entity e name).
Proof.
  apply clean_obind; [apply clean_ifc_getattr|]. intros []; split; discriminate.
Qed.

Lemma clean_attr_entities (e : entity) (name : string) : clean (attr_entities e name).
Proof.
  apply clean_obind; [apply clean_ifc_getattr|]. intros []; split; discriminate.
Qed.

Lemma clean_attr_num (e : entity) (name : string) : clean (attr_num e name).
Proof.
  apply clean_obind; [apply clean_ifc_getattr|]. intros []; split; discriminate.
Qed.

Lemma clean_attr_nums (e : entity) (name : string) : clean (attr_nums e name).
Proof.
  apply clean_obind; [apply clean_ifc_getattr|]. intros []; split; discriminate.
Qed.

Lemma clean_FreeCAD_Vector (t : list Q) : clean (FreeCAD_Vector t).
Proof. destruct t as [|x [|y [|z [|]]]]; split; discriminate. Qed.

Lemma clean_body_item (rep : entity) : clean (body_item rep).
Proof.
  apply clean_obind; [apply clean_ifc_getattr|]. intros ident.
  destruct (value_is_str ident "Body"); [|apply clean_Ok].
  apply clean_obind; [apply clean_attr_entities|].
  intros [|item [|]]; apply clean_Ok.
Qed.

Lemma clean_polyline_vectors (scaling : Q) (curve : entity) :
  clean (polyline_vectors scaling curve).
Proof.
  apply clean_obind; [apply clean_attr_entities|]. intros pts.
  apply clean_obind; [apply clean_omap_list; intros; apply clean_attr_nums|].
  intros points. apply clean_omap_list. intros p.
  apply clean_obind; [apply clean_FreeCAD_Vector | intros; apply clean_Ok].
Qed.

Lemma clean_representations (element : option entity) : clean (representations element).
Proof.
  destruct element as [e|]; [|split; discriminate].
  apply clean_obind; [apply clean_attr_entity | intros; apply clean_attr_entities].
Qed.

Lemma clean_calculate_unit_scale (f : option file) : clean (calculate_unit_scale f).
Proof. destruct f; split; discriminate. Qed.

Lemma lazy_ret {A : Type} (P : gset string) (a : A) : lazy P (mret a : M A).
Proof.
  exists (Ok a), ∅. split; [apply clean_Ok|]. split; [set_solver|].
  intros w _. split; [reflexivity|]. simpl. set_solver.
Qed.

Lemma lazy_lift {A : Type} (P : gset string) (x : outcome A) :
  clean x → lazy P (lift x).
Proof.
  intros Hx. exists x, ∅. split; [exact Hx|]. split; [set_solver|].
  intros w _. split; [reflexivity|]. simpl. set_solver.
Qed.

Lemma lazy_bind {A B : Type} (P : gset string) (m : M A) (f : A → M B) :
  lazy P m → (∀ a, lazy P (f a)) → lazy P (m ≫= f).
Proof.
  intros (r & T & Hr & HT & Hm) Hf. destruct r as [a|e].
  - destruct (Hf a) as (r' & T' & Hr' & HT' & Hfa).
    exists r', (T ∪ T'). split; [exact Hr'|]. split; [set_solver|].
    intros w Hw. rewrite run_bind. destruct (Hm w Hw) as [H1 H2].
    destruct (m w) as [o w1]. simpl in H1, H2. subst o.
    destruct (Hfa w1) as [H3 H4]; [set_solver|].
    split; [exact H3|]. rewrite H4, H2. set_solver.
  - exists (Raise e), T. split; [exact (clean_Raise e Hr)|]. split; [exact HT|].
    intros w Hw. rewrite run_bind. destruct (Hm w Hw) as [H1 H2].
    destruct (m w) as [o w1]. simpl in H1, H2. subst o. split; [reflexivity | exact H2].
Qed.

Lemma ensure_property_run (t : ptype) (name : string) (w : world) :
  ensure_property t name w = (Ok (), ensured t name w).
Proof.
  unfold ensure_property, in_PropertiesList, PropertiesList, ensured.
  rewrite !run_bind. simpl.
  destruct (props (w_obj w) !! name) as [v|] eqn:E.
  - rewrite bool_decide_eq_true_2 by (apply elem_of_dom; eauto). reflexivity.
  - rewrite bool_decide_eq_false_2 by (apply not_elem_of_dom; exact E). simpl.
    unfold addProperty. rewrite E. reflexivity.
Qed.

Lemma PropertiesList_ensured (t : ptype) (name : string) (w : world) :
  PropertiesList (w_obj (ensured t name w)) = PropertiesList (w_obj w) ∪ {[ name ]}.
Proof.
  unfold ensured, PropertiesList.
  destruct (props (w_obj w) !! name) as [v|] eqn:E; simpl.
  - assert (name ∈ dom (props (w_obj w))) by (apply elem_of_dom; eauto). set_solver.
  - rewrite dom_insert_L. set_solver.
Qed.

Lemma PropertiesList_assigned (name : string) (v : pvalue) (w : world) :
  PropertiesList (w_obj (assigned name v w)) = PropertiesList (w_obj w) ∪ {[ name ]}.
Proof. unfold assigned, PropertiesList. simpl. rewrite dom_insert_L. set_solver. Qed.

Lemma lookup_ensured_ne (t : ptype) (name k : string) (w : world) :
  k ≠ name → props (w_obj (ensured t name w)) !! k = props (w_obj w) !! k.
Proof.
  intros Hk. unfold ensured. destruct (props (w_obj w) !! name); [reflexivity|].
  simpl. apply lookup_insert_ne. congruence.
Qed.

Lemma lookup_assigned_eq (name : string) (v : pvalue) (w : world) :
  props (w_obj (assigned name v w)) !! name = Some v.
Proof. apply lookup_insert_eq. Qed.

Lemma lookup_assigned_ne (name k : string) (v : pvalue) (w : world) :
  k ≠ name → props (w_obj (assigned name v w)) !! k = props (w_obj w) !! k.
Proof. intros Hk. apply lookup_insert_ne. congruence. Qed.

Lemma run_ensure {B : Type} (t : ptype) (name : string) (k : unit → M B) (w : world) :
  (ensure_property t name ≫= k) w = k () (ensured t name w).
Proof. rewrite run_bind, ensure_property_run. reflexivity. Qed.

Lemma setattr_run (name : string) (v : pvalue) (w : world) :
  name ∈ PropertiesList (w_obj w) →
  setattr name v w = (Ok (), assigned name v w).
Proof.
  unfold PropertiesList, setattr. intros [x Hx]%elem_of_dom. rewrite Hx. reflexivity.
Qed.

Lemma run_setattr {B : Type} (name : string) (v : pvalue) (k : unit → M B) (w : world) :
  name ∈ PropertiesList (w_obj w) →
  (setattr name v ≫= k) w = k () (assigned name v w).
Proof. intros H. rewrite run_bind, setattr_run by exact H. reflexivity. Qed.

Lemma lazy_ensure_bind {B : Type} (P : gset string) (t : ptype) (name : string)
    (k : M B) :
  name ∈ geometry_properties →
  lazy (P ∪ {[ name ]}) k →
  lazy P (ensure_property t name ≫= λ _, k).
Proof.
  intros Hname (r & T & Hr & HT & Hk).
  exists r, ({[ name ]} ∪ T). split; [exact Hr|]. split; [set_solver|].
  intros w Hw. rewrite run_ensure.
  pose proof (PropertiesList_ensured t name w) as Hdom.
  destruct (Hk (ensured t name w)) as [H1 H2]; [set_solver|].
  split; [exact H1|]. rewrite H2, Hdom. set_solver.
Qed.

Lemma lazy_setattr (P : gset string) (name : string) (v : pvalue) :
  name ∈ P → lazy P (setattr name v).
Proof.
  intros Hname. exists (Ok ()), ∅. split; [apply clean_Ok|]. split; [set_solver|].
  intros w Hw. rewrite setattr_run by set_solver. split; [reflexivity|].
  cbn [snd]. rewrite PropertiesList_assigned. set_solver.
Qed.

Lemma lazy_for_each {A : Type} (P : gset string) (body : A → M unit) (l : list A) :
  (∀ a, lazy P (body a)) → lazy P (for_each body l).
Proof.
  intros Hb. induction l as [|a l IH]; simpl.
  - apply lazy_ret.
  - apply lazy_bind; [apply Hb | intros _; exact IH].
Qed.

Ltac lazy_step :=
  match goal with
  | |- lazy _ (ensure_property _ _ ≫= _) =>
      apply lazy_ensure_bind; [unfold geometry_properties; set_solver|]
  | |- lazy _ (setattr _ _ ≫= _) =>
      apply lazy_bind; [apply lazy_setattr; set_solver | intros ?]
  | |- lazy _ (setattr _ _) => apply lazy_setattr; set_solver
  | |- lazy _ (lift _ ≫= _) => apply lazy_bind; [apply lazy_lift | intros ?]
  | |- lazy _ (mret _) => apply lazy_ret
  | |- clean (attr_num _ _) => apply clean_attr_num
  | |- clean (attr_nums _ _) => apply clean_attr_nums
  | |- clean (attr_entity _ _) => apply clean_attr_entity
  | |- clean (FreeCAD_Vector _) => apply clean_FreeCAD_Vector
  | |- clean (polyline_vectors _ _) => apply clean_polyline_vectors
  | |- clean (body_item _) => apply clean_body_item
  | |- clean (representations _) => apply clean_representations
  | |- clean (calculate_unit_scale _) => apply clean_calculate_unit_scale
  | |- lazy _ (if ?b then _ else _) => destruct b
  | |- lazy _ (match ?x with _ => _ end) => destruct x
  end.

Lemma lazy_add_extrusion_properties (scaling : Q) (ext : entity) :
  lazy ∅ (add_extrusion_properties scaling ext).
Proof. unfold add_extrusion_properties. repeat lazy_step. Qed.

Lemma lazy_add_geom_rep (scaling : Q) (rep : entity) : lazy ∅ (add_geom_rep scaling rep).
Proof.
  unfold add_geom_rep. repeat lazy_step. apply lazy_add_extrusion_properties.
Qed.

Section Laziness.

Variable get_ifc_element : DocumentObject → option entity.
Variable has_representation : option entity → bool.
Variable get_ifcfile : DocumentObject → option file.

Lemma add_geom_properties_pull_from (w : world) :
  add_geom_properties get_ifc_element has_representation get_ifcfile w =
  pull_from has_representation (get_ifc_element (w_obj w)) (get_ifcfile (w_obj w)) w.
Proof.
  unfold add_geom_properties, pull_from. rewrite run_bind. simpl.
  destruct (has_representation _); reflexivity.
Qed.

Lemma lazy_pull_from (element : option entity) (ifcfile : option file) :
  lazy ∅ (pull_from has_representation element ifcfile).
Proof.
  unfold pull_from. repeat lazy_step.
  apply lazy_for_each. intros rep. apply lazy_add_geom_rep.
Qed.

Lemma keeps_identity_pull_from (element : option entity) (ifcfile : option file) :
  keeps_identity (pull_from has_representation element ifcfile).
Proof. unfold pull_from. frame. apply keeps_identity_add_geom_rep. Qed.

(** [C6] Properties are created lazily, and exist before they are set.
    Provided the helpers of [ifc_tools] find the element and the file of an
    object by its identity, for every world: the first call never fails in
    the host's property system (no [addProperty] of a name in use, no
    assignment to a missing property); it keeps every property the object
    had and adds geometry properties only; a second call on the same object
    ends as the first did and leaves the set of property names unchanged. *)
Theorem add_geom_properties_lazy (w : world) :
  (∀ o o', Name o = Name o' →
     get_ifc_element o = get_ifc_element o' ∧ get_ifcfile o = get_ifcfile o') →
  let first := add_geom_properties get_ifc_element has_representation get_ifcfile w in
  let second :=
    add_geom_properties get_ifc_element has_representation get_ifcfile first.2 in
  clean first.1 ∧
  PropertiesList (w_obj w) ⊆ PropertiesList (w_obj first.2) ∧
  PropertiesList (w_obj first.2) ⊆ PropertiesList (w_obj w) ∪ geometry_properties ∧
  second.1 = first.1 ∧
  PropertiesList (w_obj second.2) = PropertiesList (w_obj first.2).
Proof.
  intros Hid. cbv zeta.
  rewrite !add_geom_properties_pull_from.
  set (element := get_ifc_element (w_obj w)).
  set (ifcfile := get_ifcfile (w_obj w)).
  destruct (keeps_identity_pull_from element ifcfile w) as [Hname _].
  destruct (Hid _ _ Hname) as [-> ->]. fold element ifcfile.
  destruct (lazy_pull_from element ifcfile) as (r & T & Hr & HT & Hrun).
  destruct (Hrun w) as [H1 H2]; [set_solver|].
  destruct (Hrun (pull_from has_representation element ifcfile w).2) as [H3 H4]; [set_solver|].
  rewrite H1, H3, H4, H2. repeat split; [apply Hr | apply Hr | | | ]; set_solver.
Qed.

End Laziness.

(** ** The pull loop *)

Lemma for_each_app {A : Type} (body : A → M unit) (l1 l2 : list A) (w : world) :
  for_each body (l1 ++ l2) w = (for_each body l1 ≫= λ _, for_each body l2) w.
Proof.
  revert w. induction l1 as [|a l1 IH]; intros w; simpl; [reflexivity|].
  rewrite !run_bind. destruct (body a w) as [[[]|e] w1]; [|reflexivity].
  rewrite IH, run_bind. reflexivity.
Qed.

Lemma add_geom_rep_extrusion_of (scaling : Q) (rep : entity) (w : world) :
  add_geom_rep scaling rep w =
  match extrusion_of rep with
  | Ok (Some ext) => add_extrusion_properties scaling ext w
  | Ok None => (Ok (), w)
  | Raise e => (Raise e, w)
  end.
Proof.
  unfold add_geom_rep, extrusion_of. rewrite run_bind. unfold lift.
  destruct (body_item rep) as [[item|]|e]; simpl; try reflexivity.
  destruct (is_a item "IfcExtrudedAreaSolid"); reflexivity.
Qed.

Lemma for_each_skipped (scaling : Q) (l : list entity) (w : world) :
  forallb skipped l = true → for_each (add_geom_rep scaling) l w = (Ok (), w).
Proof.
  induction l as [|rep l IH]; simpl; [reflexivity|].
  intros [Hrep Hl]%andb_prop. rewrite run_bind, add_geom_rep_extrusion_of.
  unfold skipped in Hrep. destruct (extrusion_of rep) as [[ext|]|e]; try discriminate.
  apply IH, Hl.
Qed.

Lemma for_each_single_extrusion (scaling : Q) (pre post : list entity)
    (rep ext : entity) (w : world) :
  forallb skipped (pre ++ post) = true →
  extrusion_of rep = Ok (Some ext) →
  for_each (add_geom_rep scaling) (pre ++ rep :: post) w =
  add_extrusion_properties scaling ext w.
Proof.
  rewrite forallb_app. intros [Hpre Hpost]%andb_prop Hrep.
  rewrite for_each_app, run_bind, for_each_skipped by exact Hpre.
  simpl. rewrite run_bind, add_geom_rep_extrusion_of, Hrep.
  destruct (add_extrusion_properties scaling ext w) as [[[]|e] w1]; [|reflexivity].
  apply for_each_skipped, Hpost.
Qed.

Lemma run_lift_Ok {A B : Type} (a : A) (f : A → M B) (w : world) :
  (lift (Ok a) ≫= f) w = f a w.
Proof. reflexivity. Qed.

Lemma run_lift_Raise {A B : Type} (e : exn) (f : A → M B) (w : world) :
  (lift (Raise e : outcome A) ≫= f) w = (Raise e, w).
Proof. reflexivity. Qed.

(** Symbolic execution of a pull: one statement at a time. *)
Ltac pull_in :=
  rewrite ?PropertiesList_assigned, ?PropertiesList_ensured; set_solver.

Ltac pull_step :=
  first
    [ rewrite run_ensure
    | rewrite run_setattr by pull_in
    | rewrite setattr_run by pull_in
    | rewrite run_lift_Ok
    | rewrite run_lift_Raise
    | rewrite run_ret
    | erewrite run_lift_ok by eassumption ].

Ltac pull_lookup :=
  repeat first
    [ rewrite lookup_assigned_eq
    | rewrite lookup_assigned_ne by discriminate
    | rewrite lookup_ensured_ne by discriminate ].

Section Pull.

Variable get_ifc_element : DocumentObject → option entity.
Variable has_representation : option entity → bool.
Variable get_ifcfile : DocumentObject → option file.

Lemma add_geom_properties_single_extrusion (w : world) (f : file)
    (pre post : list entity) (rep ext : entity) :
  has_representation (get_ifc_element (w_obj w)) = true →
  get_ifcfile (w_obj w) = Some f →
  representations (get_ifc_element (w_obj w)) = Ok (pre ++ rep :: post) →
  forallb skipped (pre ++ post) = true →
  extrusion_of rep = Ok (Some ext) →
  add_geom_properties get_ifc_element has_representation get_ifcfile w =
  add_extrusion_properties (unit_scale f * 1000) ext w.
Proof.
  intros Hrep Hfile Hreps Hskip Hext.
  unfold add_geom_properties. rewrite run_bind. simpl.
  rewrite Hrep, Hfile. simpl.
  rewrite (run_lift_ok _ (unit_scale f)) by reflexivity.
  rewrite (run_lift_ok _ _ _ _ Hreps).
  apply for_each_single_extrusion; assumption.
Qed.

(** [C4] Pull-sync of an extrusion.  When the only single-item body among
    the representations of the element is an [IfcExtrudedAreaSolid] with
    depth [depth], extruded direction [(dx, dy, dz)] and swept area [swept],
    then after [add_geom_properties] the property [ExtrusionDepth] is
    [depth] times the unit scale of the file times 1000 and
    [ExtrusionDirection] is the vector [(dx, dy, dz)]; when [swept] is an
    [IfcRectangleProfileDef] of dimensions [x] and [y], the call moreover
    succeeds with [RectangleLength] at [x] and [RectangleWidth] at [y], each
    times the same factor. *)
Theorem add_geom_properties_extrusion (w : world) (f : file)
    (pre post : list entity) (rep ext dir swept : entity) (depth dx dy dz : Q) :
  has_representation (get_ifc_element (w_obj w)) = true →
  get_ifcfile (w_obj w) = Some f →
  representations (get_ifc_element (w_obj w)) = Ok (pre ++ rep :: post) →
  forallb skipped (pre ++ post) = true →
  extrusion_of rep = Ok (Some ext) →
  attr_num ext "Depth" = Ok depth →
  attr_entity ext "ExtrudedDirection" = Ok dir →
  attr_nums dir "DirectionRatios" = Ok [dx; dy; dz] →
  attr_entity ext "SweptArea" = Ok swept →
  let pulled := add_geom_properties get_ifc_element has_representation get_ifcfile w in
  let scaling := (unit_scale f * 1000)%Q in
  props (w_obj pulled.2) !! "ExtrusionDepth" = Some (PLength (depth * scaling)) ∧
  props (w_obj pulled.2) !! "ExtrusionDirection" = Some (PVector (mkVector dx dy dz)) ∧
  (is_a swept "IfcRectangleProfileDef" = true →
   ∀ x y : Q,
     attr_num swept "XDim" = Ok x →
     attr_num swept "YDim" = Ok y →
     pulled.1 = Ok () ∧
     props (w_obj pulled.2) !! "RectangleLength" = Some (PLength (x * scaling)) ∧
     props (w_obj pulled.2) !! "RectangleWidth" = Some (PLength (y * scaling))).
Proof.
  intros Hrep Hfile Hreps Hskip Hext Hdepth Hdir Hratios Hswept. cbv zeta.
  rewrite (add_geom_properties_single_extrusion w f pre post rep ext) by assumption.
  set (s := (unit_scale f * 1000)%Q).
  assert (Hv : FreeCAD_Vector [dx; dy; dz] = Ok (mkVector dx dy dz)) by reflexivity.
  unfold add_extrusion_properties. repeat pull_step.
  destruct (is_a swept "IfcRectangleProfileDef") eqn:Hrect.
  - split; [|split].
    + destruct (attr_num swept "XDim") as [x|e]; repeat pull_step;
        [destruct (attr_num swept "YDim") as [y|e]; repeat pull_step|];
        cbn [snd]; pull_lookup; reflexivity.
    + destruct (attr_num swept "XDim") as [x|e]; repeat pull_step;
        [destruct (attr_num swept "YDim") as [y|e]; repeat pull_step|];
        cbn [snd]; pull_lookup; reflexivity.
    + intros _ x y Hx Hy. repeat pull_step. cbn [fst snd]. pull_lookup. auto.
  - destruct (is_a swept "IfcArbitraryClosedProfileDef").
    + destruct (attr_entity swept "OuterCurve") as [curve|e]; repeat pull_step;
        [destruct (is_a curve "IfcPolyline"); repeat pull_step;
         [destruct (polyline_vectors s curve) as [points|e]; repeat pull_step|]|];
        cbn [snd]; pull_lookup; (split; [reflexivity | split; [reflexivity | discriminate]]).
    + repeat pull_step. cbn [snd]. pull_lookup.
      split; [reflexivity | split; [reflexivity | discriminate]].
Qed.

End Pull.

(** ** Pull of a polyline profile *)

Lemma pad_points_vectors (s : Q) (coords : list (list Q)) :
  forallb (λ c, 2 <=? length c) coords = true →
  omap_list (λ p, v ← FreeCAD_Vector p; mret (multiply v s)) (pad_points coords) =
  Ok (omap (flat_point s) coords).
Proof.
  unfold pad_points. induction coords as [|c coords IH]; [reflexivity|].
  intros H. cbn [forallb] in H. apply andb_prop in H as [Hc Hl].
  apply Nat.leb_le in Hc. specialize (IH Hl).
  destruct (decide (length c < 3)) as [Hlt|Hge].
  - rewrite filter_cons_True by exact Hlt.
    destruct c as [|x [|y [|z c]]]; simpl in Hc, Hlt; try lia.
    simpl. simpl in IH. rewrite IH. reflexivity.
  - rewrite filter_cons_False by exact Hge.
    destruct c as [|x [|y [|z c]]]; simpl in Hge; try lia.
    simpl. exact IH.
Qed.

Lemma polyline_vectors_flat (s : Q) (curve : entity) (pts : list entity)
    (coords : list (list Q)) :
  attr_entities curve "Points" = Ok pts →
  omap_list (λ p, attr_nums p "Coordinates") pts = Ok coords →
  forallb (λ c, 2 <=? length c) coords = true →
  polyline_vectors s curve = Ok (omap (flat_point s) coords).
Proof.
  intros Hpts Hcoords Hlen. unfold polyline_vectors.
  rewrite Hpts. simpl. rewrite Hcoords. simpl.
  apply pad_points_vectors, Hlen.
Qed.

Section PullPolyline.

Variable get_ifc_element : DocumentObject → option entity.
Variable has_representation : option entity → bool.
Variable get_ifcfile : DocumentObject → option file.

(** [C10] Pull of the points of a polyline.  When the only single-item body
    of the element is an extrusion (with a depth and a direction of three
    ratios) of a closed profile whose outer curve is a polyline, and every
    point of the polyline has at least two coordinates, then
    [add_geom_properties] succeeds and stores in [PolylinePoints], in the
    order of the polyline, one vector for every point with exactly two
    coordinates [(x, y)]: the padded tuple [(x, y, 0)] times the pull factor
    [s], that is the vector [(x * s, y * s, 0)]. *)
Theorem add_geom_properties_flat_points (w : world) (f : file)
    (pre post : list entity) (rep ext dir swept curve : entity)
    (pts : list entity) (coords : list (list Q)) (depth dx dy dz : Q) :
  has_representation (get_ifc_element (w_obj w)) = true →
  get_ifcfile (w_obj w) = Some f →
  representations (get_ifc_element (w_obj w)) = Ok (pre ++ rep :: post) →
  forallb skipped (pre ++ post) = true →
  extrusion_of rep = Ok (Some ext) →
  attr_num ext "Depth" = Ok depth →
  attr_entity ext "ExtrudedDirection" = Ok dir →
  attr_nums dir "DirectionRatios" = Ok [dx; dy; dz] →
  attr_entity ext "SweptArea" = Ok swept →
  is_a swept "IfcRectangleProfileDef" = false →
  is_a swept "IfcArbitraryClosedProfileDef" = true →
  attr_entity swept "OuterCurve" = Ok curve →
  is_a curve "IfcPolyline" = true →
  attr_entities curve "Points" = Ok pts →
  omap_list (λ p, attr_nums p "Coordinates") pts = Ok coords →
  forallb (λ c, 2 <=? length c) coords = true →
  let pulled := add_geom_properties get_ifc_element has_representation get_ifcfile w in
  let s := (unit_scale f * 1000)%Q in
  pulled.1 = Ok () ∧
  props (w_obj pulled.2) !! "PolylinePoints" =
    Some (PVectorList (omap (flat_point s) coords)) ∧
  ∀ x y : Q, [x; y] ∈ coords →
    ∃ v, v ∈ omap (flat_point s) coords ∧
         vx v = (x * s)%Q ∧ vy v = (y * s)%Q ∧ (vz v == 0)%Q.
Proof.
  intros Hrep Hfile Hreps Hskip Hext Hdepth Hdir Hratios Hswept
    Hrect Hclosed Hcurve Hpoly Hpts Hcoords Hlen. cbv zeta.
  rewrite (add_geom_properties_single_extrusion _ _ _ w f pre post rep ext)
    by assumption.
  set (s := (unit_scale f * 1000)%Q).
  assert (Hv : FreeCAD_Vector [dx; dy; dz] = Ok (mkVector dx dy dz)) by reflexivity.
  pose proof (polyline_vectors_flat s curve pts coords Hpts Hcoords Hlen) as Hvs.
  unfold add_extrusion_properties. repeat pull_step.
  rewrite Hrect, Hclosed. repeat pull_step. rewrite Hpoly. repeat pull_step.
  cbn [fst snd]. pull_lookup. split; [reflexivity|]. split; [reflexivity|].
  intros x y Hin. exists (mkVector (x * s) (y * s) (0 * s)). split.
  - apply list_elem_of_omap. exists [x; y]. split; [exact Hin | reflexivity].
  - simpl. split; [reflexivity|]. split; [reflexivity|]. apply Qmult_0_l.
Qed.

End PullPolyline.

(** ** The push loops *)

Lemma attribute_props (o : DocumentObject) (name : string) (v : pvalue) :
  props o !! name = Some v → attribute o name = Some v.
Proof. intros H. unfold attribute. rewrite H. reflexivity. Qed.

Lemma run_getattr_attribute {B : Type} (name : string) (v : pvalue) (k : pvalue → M B)
    (w : world) :
  attribute (w_obj w) name = Some v → (getattr name ≫= k) w = k v w.
Proof. intros H. rewrite run_bind. unfold getattr. rewrite H. reflexivity. Qed.

Lemma run_getattr {B : Type} (name : string) (v : pvalue) (k : pvalue → M B) (w : world) :
  props (w_obj w) !! name = Some v → (getattr name ≫= k) w = k v w.
Proof. intros H. apply run_getattr_attribute, attribute_props, H. Qed.

Lemma run_api_run {B : Type} (e : ifc_effect) (k : unit → M B) (w : world) :
  (api_run e ≫= k) w = k () (journaled e w).
Proof. reflexivity. Qed.

Lemma single_body_item_run {R : Type} (rep : entity) (k : entity → M (option R))
    (w : world) :
  single_body_item rep k w =
  match body_item rep with
  | Ok (Some item) => k item w
  | Ok None => (Ok None, w)
  | Raise e => (Raise e, w)
  end.
Proof.
  unfold single_body_item. rewrite run_bind. unfold lift.
  destruct (body_item rep) as [[item|]|e]; reflexivity.
Qed.

Lemma for_return_skip {A R : Type} (body : A → M (option R)) (p q : A → bool)
    (pre l : list A) (w : world) :
  (∀ a, p a = true → q a = true → body a w = (Ok None, w)) →
  forallb p pre = true → forallb q pre = true →
  for_return body (pre ++ l) w = for_return body l w.
Proof.
  intros Hbody. induction pre as [|a pre IH]; [reflexivity|].
  cbn [forallb]. intros [Hp Hps]%andb_prop [Hq Hqs]%andb_prop.
  cbn [app for_return]. rewrite run_bind, (Hbody a Hp Hq). apply IH; assumption.
Qed.

Lemma for_return_none {A R : Type} (body : A → M (option R)) (p q : A → bool)
    (l : list A) (w : world) :
  (∀ a, p a = true → q a = true → body a w = (Ok None, w)) →
  forallb p l = true → forallb q l = true →
  for_return body l w = (Ok None, w).
Proof.
  intros Hbody Hp Hq. rewrite <- (app_nil_r l).
  rewrite (for_return_skip body p q l [] w Hbody Hp Hq). reflexivity.
Qed.

Lemma for_return_first {A R : Type} (body : A → M (option R)) (a : A) (l : list A)
    (r : R) (w w' : world) :
  body a w = (Ok (Some r), w') → for_return body (a :: l) w = (Ok (Some r), w').
Proof. intros H. cbn [for_return]. rewrite run_bind, H. reflexivity. Qed.

(** A representation of another shape class is passed over by the loop of
    the property. *)
Lemma edit_ExtrusionDepth_mismatch (scaling : Q) (prop : string) (rep : entity)
    (w : world) :
  well_typed_rep rep = true → mismatch "ExtrusionDepth" rep = true →
  edit_ExtrusionDepth scaling prop rep w = (Ok None, w).
Proof.
  unfold edit_ExtrusionDepth, well_typed_rep, mismatch, shape_matches.
  rewrite single_body_item_run.
  destruct (body_item rep) as [[item|]|e]; try discriminate; [|reflexivity].
  cbn [String.eqb Ascii.eqb Bool.eqb andb].
  destruct (is_a item "IfcExtrudedAreaSolid"); [discriminate | reflexivity].
Qed.

Lemma edit_ExtrusionDirection_mismatch (prop : string) (rep : entity) (w : world) :
  well_typed_rep rep = true → mismatch "ExtrusionDirection" rep = true →
  edit_ExtrusionDirection prop rep w = (Ok None, w).
Proof.
  unfold edit_ExtrusionDirection, well_typed_rep, mismatch, shape_matches.
  rewrite single_body_item_run.
  destruct (body_item rep) as [[item|]|e]; try discriminate; [|reflexivity].
  change (String.eqb "ExtrusionDirection" "ExtrusionDepth") with false.
  change (String.eqb "ExtrusionDirection" "ExtrusionDirection") with true.
  destruct (is_a item "IfcExtrudedAreaSolid"); [discriminate | reflexivity].
Qed.

Lemma edit_Rectangle_mismatch (dim : string) (scaling : Q) (prop prop' : string)
    (rep : entity) (w : world) :
  prop' = "RectangleLength" ∨ prop' = "RectangleWidth" →
  well_typed_rep rep = true → mismatch prop' rep = true →
  edit_Rectangle dim scaling prop rep w = (Ok None, w).
Proof.
  intros Hprop.
  unfold edit_Rectangle, well_typed_rep, well_typed_item, mismatch, shape_matches,
    swept_is.
  rewrite single_body_item_run.
  destruct (body_item rep) as [[item|]|e]; try discriminate; [|reflexivity].
  destruct (is_a item "IfcExtrudedAreaSolid"); [|reflexivity].
  destruct (attr_entity item "SweptArea") as [swept|e];
    [|rewrite andb_false_r; discriminate].
  intros _. rewrite run_lift_Ok.
  destruct Hprop as [-> | ->]; vm_compute String.eqb; cbn [andb negb];
    destruct (is_a swept "IfcRectangleProfileDef"); (discriminate || reflexivity).
Qed.

(** The loop of the polyline points passes over every representation whose
    item is typed by the schema: it looks for an item that is itself a
    profile definition. *)
Lemma edit_PolylinePoints_well_typed (f : option file) (scaling : Q) (prop : string)
    (rep : entity) (w : world) :
  well_typed_rep rep = true →
  edit_PolylinePoints f scaling prop rep w = (Ok None, w).
Proof.
  unfold edit_PolylinePoints, well_typed_rep, well_typed_item.
  rewrite single_body_item_run.
  destruct (body_item rep) as [[item|]|e]; try discriminate; [|reflexivity].
  destruct (is_a item "IfcArbitraryClosedProfileDef"); [discriminate | reflexivity].
Qed.

Lemma set_geom_dispatch_mismatch (element : option entity) (f : option file)
    (scaling : Q) (prop : string) (reps : list entity) (w : world) :
  representations element = Ok reps →
  forallb well_typed_rep reps = true →
  forallb (mismatch prop) reps = true →
  set_geom_dispatch element f scaling prop w = (Ok None, w).
Proof.
  intros Hreps Htyped Hmis. unfold set_geom_dispatch.
  destruct (String.eqb_spec prop "ExtrusionDepth") as [->|_].
  { rewrite (run_lift_ok _ _ _ _ Hreps).
    apply (for_return_none _ well_typed_rep (mismatch "ExtrusionDepth"));
      auto using edit_ExtrusionDepth_mismatch. }
  destruct (String.eqb_spec prop "ExtrusionDirection") as [->|_].
  { rewrite (run_lift_ok _ _ _ _ Hreps).
    apply (for_return_none _ well_typed_rep (mismatch "ExtrusionDirection"));
      auto using edit_ExtrusionDirection_mismatch. }
  destruct (String.eqb_spec prop "RectangleLength") as [->|_].
  { rewrite (run_lift_ok _ _ _ _ Hreps).
    apply (for_return_none _ well_typed_rep (mismatch "RectangleLength")); auto.
    intros rep. apply edit_Rectangle_mismatch. auto. }
  destruct (String.eqb_spec prop "RectangleWidth") as [->|_].
  { rewrite (run_lift_ok _ _ _ _ Hreps).
    apply (for_return_none _ well_typed_rep (mismatch "RectangleWidth")); auto.
    intros rep. apply edit_Rectangle_mismatch. auto. }
  destruct (String.eqb_spec prop "PolylinePoints") as [->|_]; [|reflexivity].
  rewrite (run_lift_ok _ _ _ _ Hreps).
  apply (for_return_none _ well_typed_rep well_typed_rep); auto.
  intros rep H _. apply edit_PolylinePoints_well_typed, H.
Qed.

Lemma set_geom_dispatch_polyline (element : option entity) (f : option file)
    (scaling : Q) (reps : list entity) (w : world) :
  representations element = Ok reps →
  forallb well_typed_rep reps = true →
  set_geom_dispatch element f scaling "PolylinePoints" w = (Ok None, w).
Proof.
  intros Hreps Htyped. unfold set_geom_dispatch.
  change (String.eqb "PolylinePoints" "ExtrusionDepth") with false.
  change (String.eqb "PolylinePoints" "ExtrusionDirection") with false.
  change (String.eqb "PolylinePoints" "RectangleLength") with false.
  change (String.eqb "PolylinePoints" "RectangleWidth") with false.
  change (String.eqb "PolylinePoints" "PolylinePoints") with true.
  cbv iota. rewrite (run_lift_ok _ _ _ _ Hreps).
  apply (for_return_none _ well_typed_rep well_typed_rep); auto.
  intros rep H _. apply edit_PolylinePoints_well_typed, H.
Qed.

Lemma set_geom_dispatch_other (element : option entity) (f : option file)
    (scaling : Q) (prop : string) (w : world) :
  prop ∉ geometry_properties →
  set_geom_dispatch element f scaling prop w = (Ok None, w).
Proof.
  intros Hprop. unfold set_geom_dispatch.
  repeat match goal with
  | |- context [String.eqb prop ?s] =>
      destruct (String.eqb_spec prop s) as [->|_];
        [exfalso; apply Hprop; unfold geometry_properties; set_solver|]
  end.
  reflexivity.
Qed.

Section Push.

Variable get_ifc_element : DocumentObject → option entity.
Variable has_representation : option entity → bool.
Variable get_ifcfile : DocumentObject → option file.

Lemma set_geom_property_no_representation (prop : string) (w : world) :
  has_representation (get_ifc_element (w_obj w)) = false →
  set_geom_property get_ifc_element has_representation get_ifcfile prop w = (Ok false, w).
Proof.
  intros H. unfold set_geom_property. rewrite run_bind. simpl. rewrite H. reflexivity.
Qed.

Lemma add_geom_properties_no_representation (w : world) :
  has_representation (get_ifc_element (w_obj w)) = false →
  add_geom_properties get_ifc_element has_representation get_ifcfile w = (Ok (), w).
Proof.
  intros H. unfold add_geom_properties. rewrite run_bind. simpl. rewrite H. reflexivity.
Qed.

(** Past its guards, [set_geom_property] is the chain of loops. *)
Lemma set_geom_property_dispatch_attribute (prop : string) (w : world) (f : file) :
  has_representation (get_ifc_element (w_obj w)) = true →
  get_ifcfile (w_obj w) = Some f →
  ¬ (unit_scale f == 0)%Q →
  hasattr (w_obj w) prop →
  set_geom_property get_ifc_element has_representation get_ifcfile prop w =
  (set_geom_dispatch (get_ifc_element (w_obj w)) (Some f)
     (push_factor (unit_scale f)) prop
   ≫= λ r, mret (default false r)) w.
Proof.
  intros Hrep Hfile Hscale [v Hv].
  unfold set_geom_property. rewrite run_bind. simpl. rewrite Hrep, Hfile. simpl.
  rewrite run_lift_Ok. unfold push_scaling.
  destruct (Qeq_bool (unit_scale f) 0) eqn:E;
    [apply Qeq_bool_iff in E; contradiction|].
  rewrite run_lift_Ok, (run_getattr_attribute _ _ _ _ Hv). reflexivity.
Qed.

Lemma hasattr_props (o : DocumentObject) (name : string) :
  is_Some (props o !! name) → hasattr o name.
Proof. intros [v Hv]. exists v. apply attribute_props, Hv. Qed.

Lemma set_geom_property_dispatch (prop : string) (w : world) (f : file) :
  has_representation (get_ifc_element (w_obj w)) = true →
  get_ifcfile (w_obj w) = Some f →
  ¬ (unit_scale f == 0)%Q →
  is_Some (props (w_obj w) !! prop) →
  set_geom_property get_ifc_element has_representation get_ifcfile prop w =
  (set_geom_dispatch (get_ifc_element (w_obj w)) (Some f)
     (push_factor (unit_scale f)) prop
   ≫= λ r, mret (default false r)) w.
Proof.
  intros Hrep Hfile Hscale Hprop.
  apply set_geom_property_dispatch_attribute; auto using hasattr_props.
Qed.

Lemma add_geom_properties_skipped (w : world) (f : file) (reps : list entity) :
  has_representation (get_ifc_element (w_obj w)) = true →
  get_ifcfile (w_obj w) = Some f →
  representations (get_ifc_element (w_obj w)) = Ok reps →
  forallb skipped reps = true →
  add_geom_properties get_ifc_element has_representation get_ifcfile w = (Ok (), w).
Proof.
  intros Hrep Hfile Hreps Hskip.
  unfold add_geom_properties. rewrite run_bind. simpl.
  rewrite Hrep, Hfile. simpl.
  rewrite (run_lift_ok _ (unit_scale f)) by reflexivity.
  rewrite (run_lift_ok _ _ _ _ Hreps).
  apply for_each_skipped, Hskip.
Qed.

(** [C3] Silent no-ops.  (1) When the element has no representation,
    [set_geom_property] returns [False] and [add_geom_properties] returns,
    both leaving the world (object and IFC journal) as it was.  For an
    element with a representation: (2) when no representation carries a
    single extrusion body, [add_geom_properties] returns and leaves the
    world as it was; and, in a file with a unit scale other than zero and
    for a property name under which the object has an attribute, (3) when
    every representation, typed by the schema, is of a shape class that
    does not match the property, [set_geom_property] returns [False] and
    leaves the world as it was; (4) so it does when the name is not one of
    the five geometry properties. *)
Theorem sync_noop (prop : string) (w : world) (f : file) (reps : list entity) :
  let element := get_ifc_element (w_obj w) in
  let push := set_geom_property get_ifc_element has_representation get_ifcfile prop w in
  let pull := add_geom_properties get_ifc_element has_representation get_ifcfile w in
  (has_representation element = false →
     push = (Ok false, w) ∧ pull = (Ok (), w)) ∧
  (has_representation element = true →
   get_ifcfile (w_obj w) = Some f →
   representations element = Ok reps →
   forallb skipped reps = true →
     pull = (Ok (), w)) ∧
  (has_representation element = true →
   get_ifcfile (w_obj w) = Some f →
   ¬ (unit_scale f == 0)%Q →
   hasattr (w_obj w) prop →
   representations element = Ok reps →
   forallb well_typed_rep reps = true →
   forallb (mismatch prop) reps = true →
     push = (Ok false, w)) ∧
  (has_representation element = true →
   get_ifcfile (w_obj w) = Some f →
   ¬ (unit_scale f == 0)%Q →
   hasattr (w_obj w) prop →
   prop ∉ geometry_properties →
     push = (Ok false, w)).
Proof.
  cbv zeta. repeat split.
  - apply set_geom_property_no_representation, H.
  - apply add_geom_properties_no_representation, H.
  - intros. eapply add_geom_properties_skipped; eassumption.
  - intros Hrep Hfile Hscale Hprop Hreps Htyped Hmis.
    rewrite (set_geom_property_dispatch_attribute prop w f) by assumption.
    rewrite run_bind, (set_geom_dispatch_mismatch _ _ _ _ reps) by assumption.
    reflexivity.
  - intros Hrep Hfile Hscale Hprop Hother.
    rewrite (set_geom_property_dispatch_attribute prop w f) by assumption.
    rewrite run_bind, set_geom_dispatch_other by assumption.
    reflexivity.
Qed.

(** [X10] The loop of the polyline points never reaches an edit: for every element
    whose representations are typed by the schema (which covers every
    extrusion of a closed polyline), pushing [PolylinePoints] returns [False]
    and leaves the world as it was. *)
Lemma set_geom_property_polyline_passed_over (w : world) (f : file)
    (reps : list entity) :
  has_representation (get_ifc_element (w_obj w)) = true →
  get_ifcfile (w_obj w) = Some f →
  ¬ (unit_scale f == 0)%Q →
  is_Some (props (w_obj w) !! "PolylinePoints") →
  representations (get_ifc_element (w_obj w)) = Ok reps →
  forallb well_typed_rep reps = true →
  set_geom_property get_ifc_element has_representation get_ifcfile "PolylinePoints" w =
  (Ok false, w).
Proof.
  intros Hrep Hfile Hscale Hprop Hreps Htyped.
  rewrite (set_geom_property_dispatch "PolylinePoints" w f) by assumption.
  rewrite run_bind, (set_geom_dispatch_polyline _ _ _ reps) by assumption.
  reflexivity.
Qed.

End Push.

(** ** The first matching body *)

Section FirstMatch.

Variable get_ifc_element : DocumentObject → option entity.
Variable has_representation : option entity → bool.
Variable get_ifcfile : DocumentObject → option file.

(** [C9] One edit per call, on the first match.  Let the representations of
    the element be [pre ++ rep :: post], where the representations [pre] are
    typed by the schema, and [rep] is a body whose single item is an
    [IfcExtrudedAreaSolid].  For each of the four scalar properties: when no
    representation of [pre] matches the property (and, for the rectangle
    dimensions, the swept area of the item is an [IfcRectangleProfileDef]),
    [set_geom_property] returns [True] and the journal grows by exactly one
    entry, the edit of the one attribute on the item of [rep] (or on its
    direction, or on its swept area), whatever the later representations
    [post] are. *)
Theorem set_geom_property_first_match (w : world) (f : file)
    (pre post : list entity) (rep item dir swept : entity) (q : Q) (v : Vector) :
  has_representation (get_ifc_element (w_obj w)) = true →
  get_ifcfile (w_obj w) = Some f →
  ¬ (unit_scale f == 0)%Q →
  representations (get_ifc_element (w_obj w)) = Ok (pre ++ rep :: post) →
  forallb well_typed_rep pre = true →
  body_item rep = Ok (Some item) →
  is_a item "IfcExtrudedAreaSolid" = true →
  let push := set_geom_property get_ifc_element has_representation get_ifcfile in
  let s := push_factor (unit_scale f) in
  (forallb (mismatch "ExtrusionDepth") pre = true →
   props (w_obj w) !! "ExtrusionDepth" = Some (PLength q) →
     push "ExtrusionDepth" w =
     (Ok true, journaled (edit_attributes item {[ "Depth" := VNum (q * s) ]}) w)) ∧
  (forallb (mismatch "ExtrusionDirection") pre = true →
   props (w_obj w) !! "ExtrusionDirection" = Some (PVector v) →
   attr_entity item "ExtrudedDirection" = Ok dir →
     push "ExtrusionDirection" w =
     (Ok true,
      journaled (edit_attributes dir {[ "DirectionRatios" := VNums (tuple v) ]}) w)) ∧
  (forallb (mismatch "RectangleLength") pre = true →
   props (w_obj w) !! "RectangleLength" = Some (PLength q) →
   attr_entity item "SweptArea" = Ok swept →
   is_a swept "IfcRectangleProfileDef" = true →
     push "RectangleLength" w =
     (Ok true, journaled (edit_attributes swept {[ "XDim" := VNum (q * s) ]}) w)) ∧
  (forallb (mismatch "RectangleWidth") pre = true →
   props (w_obj w) !! "RectangleWidth" = Some (PLength q) →
   attr_entity item "SweptArea" = Ok swept →
   is_a swept "IfcRectangleProfileDef" = true →
     push "RectangleWidth" w =
     (Ok true, journaled (edit_attributes swept {[ "YDim" := VNum (q * s) ]}) w)).
Proof.
  intros Hrep Hfile Hscale Hreps Htyped Hitem Hext. cbv zeta.
  split; [|split; [|split]].
  - intros Hmis Hprop.
    rewrite (set_geom_property_dispatch _ _ _ _ w f) by eauto.
    rewrite run_bind. unfold set_geom_dispatch.
    change (String.eqb "ExtrusionDepth" "ExtrusionDepth") with true. cbv iota.
    rewrite (run_lift_ok _ _ _ _ Hreps).
    rewrite (for_return_skip _ well_typed_rep (mismatch "ExtrusionDepth"))
      by auto using edit_ExtrusionDepth_mismatch.
    erewrite for_return_first; [reflexivity|].
    unfold edit_ExtrusionDepth. rewrite single_body_item_run, Hitem, Hext.
    rewrite (run_getattr _ _ _ _ Hprop). reflexivity.
  - intros Hmis Hprop Hdir.
    rewrite (set_geom_property_dispatch _ _ _ _ w f) by eauto.
    rewrite run_bind. unfold set_geom_dispatch.
    change (String.eqb "ExtrusionDirection" "ExtrusionDepth") with false.
    change (String.eqb "ExtrusionDirection" "ExtrusionDirection") with true. cbv iota.
    rewrite (run_lift_ok _ _ _ _ Hreps).
    rewrite (for_return_skip _ well_typed_rep (mismatch "ExtrusionDirection"))
      by auto using edit_ExtrusionDirection_mismatch.
    erewrite for_return_first; [reflexivity|].
    unfold edit_ExtrusionDirection. rewrite single_body_item_run, Hitem, Hext.
    rewrite (run_lift_ok _ _ _ _ Hdir), (run_getattr _ _ _ _ Hprop). reflexivity.
  - intros Hmis Hprop Hswept Hrect.
    rewrite (set_geom_property_dispatch _ _ _ _ w f) by eauto.
    rewrite run_bind. unfold set_geom_dispatch.
    change (String.eqb "RectangleLength" "ExtrusionDepth") with false.
    change (String.eqb "RectangleLength" "ExtrusionDirection") with false.
    change (String.eqb "RectangleLength" "RectangleLength") with true. cbv iota.
    rewrite (run_lift_ok _ _ _ _ Hreps).
    rewrite (for_return_skip _ well_typed_rep (mismatch "RectangleLength"))
      by (auto; intros r; apply edit_Rectangle_mismatch; auto).
    erewrite for_return_first; [reflexivity|].
    unfold edit_Rectangle. rewrite single_body_item_run, Hitem, Hext.
    rewrite (run_lift_ok _ _ _ _ Hswept), Hrect, (run_getattr _ _ _ _ Hprop).
    reflexivity.
  - intros Hmis Hprop Hswept Hrect.
    rewrite (set_geom_property_dispatch _ _ _ _ w f) by eauto.
    rewrite run_bind. unfold set_geom_dispatch.
    change (String.eqb "RectangleWidth" "ExtrusionDepth") with false.
    change (String.eqb "RectangleWidth" "ExtrusionDirection") with false.
    change (String.eqb "RectangleWidth" "RectangleLength") with false.
    change (String.eqb "RectangleWidth" "RectangleWidth") with true. cbv iota.
    rewrite (run_lift_ok _ _ _ _ Hreps).
    rewrite (for_return_skip _ well_typed_rep (mismatch "RectangleWidth"))
      by (auto; intros r; apply edit_Rectangle_mismatch; auto).
    erewrite for_return_first; [reflexivity|].
    unfold edit_Rectangle. rewrite single_body_item_run, Hitem, Hext.
    rewrite (run_lift_ok _ _ _ _ Hswept), Hrect, (run_getattr _ _ _ _ Hprop).
    reflexivity.
Qed.

End FirstMatch.

(** ** The view provider *)

Section ViewProviderFacts.

Variable module_dir : string.
Variable get_ifcfile : DocumentObject → option file.
Variable get_children : DocumentObject → file → list entity.

(** [C8] The context menu and the hooks of the view provider.
    [setupContextMenu] appends the action "Reveal children" to the menu when
    [hasChildren] is true of the object and leaves the menu as it is
    otherwise, so the action is added if and only if [hasChildren] is true;
    [hasChildren] is false whenever the object has no IFC file; [onChanged]
    and [updateData] return nothing, [getDisplayModes] returns the empty
    list and [setDisplayMode] hands back its argument, each leaving the
    view provider unchanged. *)
Theorem view_provider_hooks (self : ifc_vp_object) (vobj : ViewObject)
    (obj : DocumentObject) (menu : list QAction) (prop mode : string) :
  let shown := setupContextMenu module_dir get_ifcfile get_children self vobj menu in
  let has := hasChildren get_ifcfile get_children self (vobj_Object vobj) in
  (has = true ↔ shown = menu ++ [reveal_action module_dir self]) ∧
  (has = false ↔ shown = menu) ∧
  action_text (reveal_action module_dir self) = "Reveal children" ∧
  (get_ifcfile obj = None → hasChildren get_ifcfile get_children self obj = false) ∧
  onChanged self vobj prop = ((), self) ∧
  updateData self obj prop = ((), self) ∧
  getDisplayModes self vobj = ([], self) ∧
  setDisplayMode self mode = (mode, self).
Proof.
  cbv zeta. unfold setupContextMenu.
  assert (Hne : menu ++ [reveal_action module_dir self] ≠ menu).
  { intros H. apply (f_equal length) in H. rewrite length_app in H. simpl in H. lia. }
  destruct (hasChildren get_ifcfile get_children self (vobj_Object vobj)).
  - repeat split; try reflexivity; try discriminate; try congruence.
    intros H. unfold hasChildren. rewrite H. reflexivity.
  - repeat split; try reflexivity; try discriminate; try congruence.
    intros H. unfold hasChildren. rewrite H. reflexivity.
Qed.

End ViewProviderFacts.

(** ** The two defects, at their failing inputs *)

(** [C1] At the failing input.  The body of the sample slab is a single
    extrusion of a closed profile whose outer curve is a polyline of three
    points, and the object holds four [PolylinePoints]; the push-sync is
    specified to create a fourth point, to edit the coordinates of each
    point and to return [True].  The loop of [set_geom_property] tests whether the item of the
    body is itself an [IfcArbitraryClosedProfileDef], which an extruded
    solid is not: the call returns [False] and the journal stays empty. *)
Theorem push_polyline_returns_false :
  extrusion_of Sample.tri_body = Ok (Some Sample.tri_solid) ∧
  shape_matches "PolylinePoints" Sample.tri_solid = true ∧
  Sample.push Sample.tri_slab "PolylinePoints" Sample.edited_outline =
    (Ok false, Sample.edited_outline).
Proof. vm_compute. repeat split; reflexivity. Qed.

(** [C2] At the failing input.  The outline of the sample slab has three
    points, the last one written with three coordinates; after
    [add_geom_properties], which succeeds, [PolylinePoints] holds two
    vectors: the comprehension that pads the short points filters the
    others out. *)
Theorem pull_polyline_drops_point :
  attr_entities Sample.triangle3 "Points" =
    Ok [Sample.point 63 [0; 0]; Sample.point 64 [4; 0]; Sample.point 65 [4; 3; 0]]%Q ∧
  (Sample.pull Sample.tri3_slab Sample.fresh_world).1 = Ok () ∧
  props (w_obj (Sample.pulled Sample.tri3_slab)) !! "PolylinePoints" =
    Some (PVectorList [mkVector (0 * ((1 # 1000) * 1000)) (0 * ((1 # 1000) * 1000))
                                (0 * ((1 # 1000) * 1000));
                       mkVector (4 * ((1 # 1000) * 1000)) (0 * ((1 # 1000) * 1000))
                                (0 * ((1 # 1000) * 1000))]).
Proof. vm_compute. repeat split; reflexivity. Qed.

(** * Instances on the sample data *)

Section Instances.

Import Sample.

#[local] Open Scope Q_scope.

(** A file in millimetres: 2500 mm pulled and pushed back. *)
Lemma pull_push_inverse_witness :
  ¬ ((1 # 1000) == 0) ∧
  ∃ k, push_scaling (1 # 1000) = Ok k ∧ 2500 * pull_scaling (1 # 1000) * k == 2500.
Proof.
  assert (H : ¬ ((1 # 1000) == 0)) by (intros H; vm_compute in H; discriminate H).
  exact (conj H (pull_push_inverse 2500 (1 # 1000) H)).
Defined.

(** The rectangular wall, pulled twice. *)
Lemma add_geom_properties_lazy_witness :
  (∀ o o', Name o = Name o' →
     wall_element o = wall_element o' ∧ mm_ifcfile o = mm_ifcfile o') ∧
  clean (pull rect_wall fresh_world).1 ∧
  PropertiesList fresh_obj ⊆ PropertiesList (w_obj (pulled rect_wall)) ∧
  PropertiesList (w_obj (pulled rect_wall)) ⊆ PropertiesList fresh_obj ∪ geometry_properties ∧
  (pull rect_wall (pulled rect_wall)).1 = (pull rect_wall fresh_world).1 ∧
  PropertiesList (w_obj (pull rect_wall (pulled rect_wall)).2) =
    PropertiesList (w_obj (pulled rect_wall)).
Proof.
  assert (H : ∀ o o', Name o = Name o' →
     wall_element o = wall_element o' ∧ mm_ifcfile o = mm_ifcfile o')
    by (intros o o' _; split; reflexivity).
  exact (conj H (add_geom_properties_lazy wall_element has_representation
                   mm_ifcfile fresh_world H)).
Defined.

(** The rectangular wall: 3 high, 5 long, 0.2 wide, beside its axis. *)
Lemma add_geom_properties_extrusion_witness :
  has_representation (wall_element fresh_obj) = true ∧
  mm_ifcfile fresh_obj = Some mm_file ∧
  representations (wall_element fresh_obj) = Ok ([axis] ++ rect_body :: []) ∧
  forallb skipped ([axis] ++ []) = true ∧
  extrusion_of rect_body = Ok (Some rect_solid) ∧
  attr_num rect_solid "Depth" = Ok 3 ∧
  attr_entity rect_solid "ExtrudedDirection" = Ok up ∧
  attr_nums up "DirectionRatios" = Ok [0; 0; 1] ∧
  attr_entity rect_solid "SweptArea" = Ok rect_profile ∧
  is_a rect_profile "IfcRectangleProfileDef" = true ∧
  attr_num rect_profile "XDim" = Ok 5 ∧
  attr_num rect_profile "YDim" = Ok (1 # 5) ∧
  props (w_obj (pulled rect_wall)) !! "ExtrusionDepth" = Some (PLength (3 * mm)) ∧
  props (w_obj (pulled rect_wall)) !! "ExtrusionDirection" =
    Some (PVector (mkVector 0 0 1)) ∧
  (pull rect_wall fresh_world).1 = Ok () ∧
  props (w_obj (pulled rect_wall)) !! "RectangleLength" = Some (PLength (5 * mm)) ∧
  props (w_obj (pulled rect_wall)) !! "RectangleWidth" = Some (PLength ((1 # 5) * mm)).
Proof.
  assert (H1 : has_representation (wall_element (w_obj fresh_world)) = true)
    by reflexivity.
  assert (H2 : mm_ifcfile (w_obj fresh_world) = Some mm_file) by reflexivity.
  assert (H3 : representations (wall_element (w_obj fresh_world)) =
               Ok ([axis] ++ rect_body :: [])) by reflexivity.
  assert (H4 : forallb skipped ([axis] ++ []) = true) by reflexivity.
  assert (H5 : extrusion_of rect_body = Ok (Some rect_solid)) by reflexivity.
  assert (H6 : attr_num rect_solid "Depth" = Ok 3) by reflexivity.
  assert (H7 : attr_entity rect_solid "ExtrudedDirection" = Ok up) by reflexivity.
  assert (H8 : attr_nums up "DirectionRatios" = Ok [0; 0; 1]) by reflexivity.
  assert (H9 : attr_entity rect_solid "SweptArea" = Ok rect_profile) by reflexivity.
  assert (H10 : is_a rect_profile "IfcRectangleProfileDef" = true) by reflexivity.
  assert (H11 : attr_num rect_profile "XDim" = Ok 5) by reflexivity.
  assert (H12 : attr_num rect_profile "YDim" = Ok (1 # 5)) by reflexivity.
  destruct (add_geom_properties_extrusion wall_element has_representation
              mm_ifcfile fresh_world mm_file [axis] [] rect_body rect_solid up
              rect_profile 3 0 0 1 H1 H2 H3 H4 H5 H6 H7 H8 H9) as (A & B & C).
  destruct (C H10 5 (1 # 5) H11 H12) as (D & E & F).
  exact (conj H1 (conj H2 (conj H3 (conj H4 (conj H5 (conj H6 (conj H7 (conj H8
         (conj H9 (conj H10 (conj H11 (conj H12 (conj A (conj B (conj D
         (conj E F)))))))))))))))).
Defined.

(** The triangular slab: three points of two coordinates. *)
Lemma add_geom_properties_flat_points_witness :
  has_representation (element_is (Some tri_slab) fresh_obj) = true ∧
  mm_ifcfile fresh_obj = Some mm_file ∧
  representations (element_is (Some tri_slab) fresh_obj) = Ok ([] ++ tri_body :: []) ∧
  forallb skipped ([] ++ []) = true ∧
  extrusion_of tri_body = Ok (Some tri_solid) ∧
  attr_num tri_solid "Depth" = Ok 2 ∧
  attr_entity tri_solid "ExtrudedDirection" = Ok up ∧
  attr_nums up "DirectionRatios" = Ok [0; 0; 1] ∧
  attr_entity tri_solid "SweptArea" = Ok tri_profile ∧
  is_a tri_profile "IfcRectangleProfileDef" = false ∧
  is_a tri_profile "IfcArbitraryClosedProfileDef" = true ∧
  attr_entity tri_profile "OuterCurve" = Ok triangle ∧
  is_a triangle "IfcPolyline" = true ∧
  attr_entities triangle "Points" = Ok tri_points ∧
  omap_list (λ p, attr_nums p "Coordinates") tri_points = Ok tri_coords ∧
  forallb (λ c, 2 <=? length c)%nat tri_coords = true ∧
  (pull tri_slab fresh_world).1 = Ok () ∧
  props (w_obj (pulled tri_slab)) !! "PolylinePoints" =
    Some (PVectorList [mkVector (0 * mm) (0 * mm) (0 * mm);
                       mkVector (4 * mm) (0 * mm) (0 * mm);
                       mkVector (4 * mm) (3 * mm) (0 * mm)]) ∧
  ∃ v, v ∈ omap (flat_point mm) tri_coords ∧
       vx v = 4 * mm ∧ vy v = 3 * mm ∧ vz v == 0.
Proof.
  assert (H1 : has_representation (element_is (Some tri_slab) (w_obj fresh_world)) = true)
    by reflexivity.
  assert (H2 : mm_ifcfile (w_obj fresh_world) = Some mm_file) by reflexivity.
  assert (H3 : representations (element_is (Some tri_slab) (w_obj fresh_world)) =
               Ok ([] ++ tri_body :: [])) by reflexivity.
  assert (H4 : forallb skipped ([] ++ []) = true) by reflexivity.
  assert (H5 : extrusion_of tri_body = Ok (Some tri_solid)) by reflexivity.
  assert (H6 : attr_num tri_solid "Depth" = Ok 2) by reflexivity.
  assert (H7 : attr_entity tri_solid "ExtrudedDirection" = Ok up) by reflexivity.
  assert (H8 : attr_nums up "DirectionRatios" = Ok [0; 0; 1]) by reflexivity.
  assert (H9 : attr_entity tri_solid "SweptArea" = Ok tri_profile) by reflexivity.
  assert (H10 : is_a tri_profile "IfcRectangleProfileDef" = false) by reflexivity.
  assert (H11 : is_a tri_profile "IfcArbitraryClosedProfileDef" = true) by reflexivity.
  assert (H12 : attr_entity tri_profile "OuterCurve" = Ok triangle) by reflexivity.
  assert (H13 : is_a triangle "IfcPolyline" = true) by reflexivity.
  assert (H14 : attr_entities triangle "Points" = Ok tri_points) by reflexivity.
  assert (H15 : omap_list (λ p, attr_nums p "Coordinates") tri_points = Ok tri_coords)
    by reflexivity.
  assert (H16 : forallb (λ c, 2 <=? length c)%nat tri_coords = true) by reflexivity.
  destruct (add_geom_properties_flat_points (element_is (Some tri_slab))
              has_representation mm_ifcfile fresh_world mm_file [] [] tri_body
              tri_solid up tri_profile triangle tri_points tri_coords
              2 0 0 1 H1 H2 H3 H4 H5 H6 H7 H8 H9 H10 H11 H12 H13 H14 H15 H16)
    as (A & B & C).
  assert (Hin : [4; 3] ∈ tri_coords) by (unfold tri_coords; set_solver).
  exact (conj H1 (conj H2 (conj H3 (conj H4 (conj H5 (conj H6 (conj H7 (conj H8
         (conj H9 (conj H10 (conj H11 (conj H12 (conj H13 (conj H14 (conj H15
         (conj H16 (conj A (conj B (C 4 3 Hin))))))))))))))))))).
Defined.

(** No-ops: a product without representation; a product with an axis only;
    the length of a rectangle, which the object has, asked of the triangular
    slab; the name of the object, an attribute that is no property. *)
Lemma sync_noop_witness :
  (has_representation (element_is (Some unplaced) fresh_obj) = false ∧
   push unplaced "ExtrusionDepth" fresh_world = (Ok false, fresh_world) ∧
   pull unplaced fresh_world = (Ok (), fresh_world)) ∧
  (has_representation (element_is (Some axis_only) fresh_obj) = true ∧
   representations (element_is (Some axis_only) fresh_obj) = Ok [axis] ∧
   forallb skipped [axis] = true ∧
   pull axis_only fresh_world = (Ok (), fresh_world)) ∧
  ((¬ (unit_scale mm_file == 0)) ∧
   hasattr (w_obj (pulled rect_wall)) "RectangleLength" ∧
   representations (element_is (Some tri_slab) fresh_obj) = Ok [tri_body] ∧
   forallb well_typed_rep [tri_body] = true ∧
   forallb (mismatch "RectangleLength") [tri_body] = true ∧
   push tri_slab "RectangleLength" (pulled rect_wall) = (Ok false, pulled rect_wall)) ∧
  (hasattr fresh_obj "Name" ∧
   props fresh_obj !! "Name" = None ∧
   ("Name" ∉ geometry_properties) ∧
   push rect_wall "Name" fresh_world = (Ok false, fresh_world)).
Proof.
  assert (Hs : ¬ (unit_scale mm_file == 0))
    by (intros H; vm_compute in H; discriminate H).
  assert (A1 : has_representation (element_is (Some unplaced) (w_obj fresh_world)) = false)
    by reflexivity.
  assert (B1 : has_representation (element_is (Some axis_only) (w_obj fresh_world)) = true)
    by reflexivity.
  assert (B2 : representations (element_is (Some axis_only) (w_obj fresh_world)) = Ok [axis])
    by reflexivity.
  assert (B3 : forallb skipped [axis] = true) by reflexivity.
  assert (C1 : has_representation
                 (element_is (Some tri_slab) (w_obj (pulled rect_wall))) = true)
    by reflexivity.
  assert (C2 : hasattr (w_obj (pulled rect_wall)) "RectangleLength")
    by (vm_compute; eauto).
  assert (C3 : representations (element_is (Some tri_slab) (w_obj (pulled rect_wall))) =
               Ok [tri_body]) by reflexivity.
  assert (C4 : forallb well_typed_rep [tri_body] = true) by reflexivity.
  assert (C5 : forallb (mismatch "RectangleLength") [tri_body] = true) by reflexivity.
  assert (D1 : has_representation (element_is (Some rect_wall) (w_obj fresh_world)) = true)
    by reflexivity.
  assert (D2 : hasattr (w_obj fresh_world) "Name") by (vm_compute; eauto).
  assert (D3 : "Name" ∉ geometry_properties)
    by (unfold geometry_properties; set_solver).
  assert (D5 : props fresh_obj !! "Name" = None) by (vm_compute; reflexivity).
  destruct (sync_noop (element_is (Some unplaced)) has_representation mm_ifcfile
              "ExtrusionDepth" fresh_world mm_file []) as ((A2 & A3)%(λ H, H A1) & _).
  destruct (sync_noop (element_is (Some axis_only)) has_representation mm_ifcfile
              "ExtrusionDepth" fresh_world mm_file [axis]) as (_ & B4 & _).
  destruct (sync_noop (element_is (Some tri_slab)) has_representation mm_ifcfile
              "RectangleLength" (pulled rect_wall) mm_file [tri_body]) as (_ & _ & C6 & _).
  destruct (sync_noop (element_is (Some rect_wall)) has_representation mm_ifcfile
              "Name" fresh_world mm_file []) as (_ & _ & _ & D4).
  exact (conj (conj A1 (conj A2 A3))
        (conj (conj B1 (conj B2 (conj B3 (B4 B1 eq_refl B2 B3))))
        (conj (conj Hs (conj C2 (conj C3 (conj C4 (conj C5
                 (C6 C1 eq_refl Hs C2 C3 C4 C5))))))
              (conj D2 (conj D5 (conj D3 (D4 D1 eq_refl Hs D2 D3))))))).
Defined.

(** [C3] Where the no-op is not silent.  The slab after its own pull has a
    representation, and its one body, the extrusion of a closed polyline,
    is of a shape class that does not match [RectangleLength]; the object
    has no attribute of this name, and [set_geom_property] raises
    [AttributeError] from its debug output instead of returning [False].
    And for the wall in a file whose unit scale is zero the label, which is
    not one of the five geometry properties, makes it raise
    [ZeroDivisionError]. *)
Lemma sync_noop_counterexample :
  (has_representation (element_is (Some tri_slab) (w_obj (pulled tri_slab))) = true ∧
   representations (element_is (Some tri_slab) (w_obj (pulled tri_slab))) = Ok [tri_body] ∧
   forallb well_typed_rep [tri_body] = true ∧
   forallb (mismatch "RectangleLength") [tri_body] = true ∧
   push tri_slab "RectangleLength" (pulled tri_slab) =
     (Raise (AttributeError OnDocumentObject), pulled tri_slab) ∧
   push tri_slab "RectangleLength" (pulled tri_slab) ≠ (Ok false, pulled tri_slab)) ∧
  (has_representation (wall_element (w_obj (pulled rect_wall))) = true ∧
   ("Label" ∉ geometry_properties) ∧
   set_geom_property wall_element has_representation (file_is (Some null_file))
     "Label" (pulled rect_wall) = (Raise ZeroDivisionError, pulled rect_wall) ∧
   set_geom_property wall_element has_representation (file_is (Some null_file))
     "Label" (pulled rect_wall) ≠ (Ok false, pulled rect_wall)).
Proof.
  assert (E1 : push tri_slab "RectangleLength" (pulled tri_slab) =
               (Raise (AttributeError OnDocumentObject), pulled tri_slab))
    by (vm_compute; reflexivity).
  assert (E2 : set_geom_property wall_element has_representation (file_is (Some null_file))
                 "Label" (pulled rect_wall) = (Raise ZeroDivisionError, pulled rect_wall))
    by (vm_compute; reflexivity).
  split; [split; [reflexivity|]|split; [reflexivity|]].
  - split; [reflexivity|]. split; [reflexivity|]. split; [reflexivity|].
    split; [exact E1|]. rewrite E1. discriminate.
  - split; [unfold geometry_properties; set_solver|].
    split; [exact E2|]. rewrite E2. discriminate.
Qed.

(** The wall with two bodies, pushed after a pull: the first body is edited,
    with the values of the object (which the pull took from the second). *)
Lemma set_geom_property_first_match_witness :
  has_representation (element_is (Some two_body_wall) fresh_obj) = true ∧
  representations (element_is (Some two_body_wall) fresh_obj) =
    Ok ([axis] ++ rect_body :: [rect_body2]) ∧
  forallb well_typed_rep [axis] = true ∧
  forallb (mismatch "ExtrusionDepth") [axis] = true ∧
  forallb (mismatch "ExtrusionDirection") [axis] = true ∧
  forallb (mismatch "RectangleLength") [axis] = true ∧
  forallb (mismatch "RectangleWidth") [axis] = true ∧
  body_item rect_body = Ok (Some rect_solid) ∧
  is_a rect_solid "IfcExtrudedAreaSolid" = true ∧
  props (w_obj (pulled two_body_wall)) !! "ExtrusionDepth" = Some (PLength (9 * mm)) ∧
  props (w_obj (pulled two_body_wall)) !! "ExtrusionDirection" =
    Some (PVector (mkVector 0 0 1)) ∧
  props (w_obj (pulled two_body_wall)) !! "RectangleLength" = Some (PLength (7 * mm)) ∧
  props (w_obj (pulled two_body_wall)) !! "RectangleWidth" =
    Some (PLength ((1 # 2) * mm)) ∧
  push two_body_wall "ExtrusionDepth" (pulled two_body_wall) =
    (Ok true,
     journaled (edit_attributes rect_solid
                  {[ "Depth" := VNum (9 * mm * push_factor (1 # 1000)) ]})
               (pulled two_body_wall)) ∧
  push two_body_wall "ExtrusionDirection" (pulled two_body_wall) =
    (Ok true,
     journaled (edit_attributes up {[ "DirectionRatios" := VNums [0; 0; 1] ]})
               (pulled two_body_wall)) ∧
  push two_body_wall "RectangleLength" (pulled two_body_wall) =
    (Ok true,
     journaled (edit_attributes rect_profile
                  {[ "XDim" := VNum (7 * mm * push_factor (1 # 1000)) ]})
               (pulled two_body_wall)) ∧
  push two_body_wall "RectangleWidth" (pulled two_body_wall) =
    (Ok true,
     journaled (edit_attributes rect_profile
                  {[ "YDim" := VNum ((1 # 2) * mm * push_factor (1 # 1000)) ]})
               (pulled two_body_wall)).
Proof.
  assert (Hs : ¬ (unit_scale mm_file == 0))
    by (intros H; vm_compute in H; discriminate H).
  assert (H1 : has_representation
                 (element_is (Some two_body_wall) (w_obj (pulled two_body_wall))) = true)
    by reflexivity.
  assert (H2 : mm_ifcfile (w_obj (pulled two_body_wall)) = Some mm_file) by reflexivity.
  assert (H3 : representations
                 (element_is (Some two_body_wall) (w_obj (pulled two_body_wall))) =
               Ok ([axis] ++ rect_body :: [rect_body2])) by reflexivity.
  assert (H4 : forallb well_typed_rep [axis] = true) by reflexivity.
  assert (M1 : forallb (mismatch "ExtrusionDepth") [axis] = true) by reflexivity.
  assert (M2 : forallb (mismatch "ExtrusionDirection") [axis] = true) by reflexivity.
  assert (M3 : forallb (mismatch "RectangleLength") [axis] = true) by reflexivity.
  assert (M4 : forallb (mismatch "RectangleWidth") [axis] = true) by reflexivity.
  assert (H5 : body_item rect_body = Ok (Some rect_solid)) by reflexivity.
  assert (H6 : is_a rect_solid "IfcExtrudedAreaSolid" = true) by reflexivity.
  assert (P1 : props (w_obj (pulled two_body_wall)) !! "ExtrusionDepth" =
               Some (PLength (9 * mm))) by (vm_compute; reflexivity).
  assert (P2 : props (w_obj (pulled two_body_wall)) !! "ExtrusionDirection" =
               Some (PVector (mkVector 0 0 1))) by (vm_compute; reflexivity).
  assert (P3 : props (w_obj (pulled two_body_wall)) !! "RectangleLength" =
               Some (PLength (7 * mm))) by (vm_compute; reflexivity).
  assert (P4 : props (w_obj (pulled two_body_wall)) !! "RectangleWidth" =
               Some (PLength ((1 # 2) * mm))) by (vm_compute; reflexivity).
  assert (S1 : attr_entity rect_solid "ExtrudedDirection" = Ok up) by reflexivity.
  assert (S2 : attr_entity rect_solid "SweptArea" = Ok rect_profile) by reflexivity.
  assert (S3 : is_a rect_profile "IfcRectangleProfileDef" = true) by reflexivity.
  destruct (set_geom_property_first_match (element_is (Some two_body_wall))
              has_representation mm_ifcfile (pulled two_body_wall) mm_file
              [axis] [rect_body2] rect_body rect_solid up rect_profile
              (9 * mm) (mkVector 0 0 1) H1 H2 Hs H3 H4 H5 H6) as (E1 & E2 & _ & _).
  destruct (set_geom_property_first_match (element_is (Some two_body_wall))
              has_representation mm_ifcfile (pulled two_body_wall) mm_file
              [axis] [rect_body2] rect_body rect_solid up rect_profile
              (7 * mm) (mkVector 0 0 1) H1 H2 Hs H3 H4 H5 H6) as (_ & _ & E3 & _).
  destruct (set_geom_property_first_match (element_is (Some two_body_wall))
              has_representation mm_ifcfile (pulled two_body_wall) mm_file
              [axis] [rect_body2] rect_body rect_solid up rect_profile
              ((1 # 2) * mm) (mkVector 0 0 1) H1 H2 Hs H3 H4 H5 H6) as (_ & _ & _ & E4).
  exact (conj H1 (conj H3 (conj H4 (conj M1 (conj M2 (conj M3 (conj M4 (conj H5
         (conj H6 (conj P1 (conj P2 (conj P3 (conj P4
         (conj (E1 M1 P1) (conj (E2 M2 P2 S1)
         (conj (E3 M3 P3 S2 S3) (E4 M4 P4 S2 S3))))))))))))))))).
Defined.

(** The storey, which has children in its file, and the same storey
    without a file. *)
Lemma view_provider_hooks_witness :
  setupContextMenu "Mod" mm_ifcfile children_of storey_vp (mkViewObject storey) [] =
    [mkQAction "Mod/icons/IFC.svg" "Reveal children" [revealChildren_of storey_vp]] ∧
  setupContextMenu "Mod" (file_is None) children_of storey_vp (mkViewObject storey) [] = [] ∧
  file_is None storey = None ∧
  hasChildren (file_is None) children_of storey_vp storey = false.
Proof.
  destruct (view_provider_hooks "Mod" mm_ifcfile children_of storey_vp
              (mkViewObject storey) storey [] "Visibility" "FlatLines")
    as ((A & _) & _).
  destruct (view_provider_hooks "Mod" (file_is None) children_of storey_vp
              (mkViewObject storey) storey [] "Visibility" "FlatLines")
    as (_ & (B & _) & _ & C & _).
  exact (conj (A eq_refl) (conj (B eq_refl) (conj eq_refl (C eq_refl)))).
Defined.

End Instances.

(** * Further properties of the pull *)

(** ** Settled worlds *)

Lemma with_props_id (o : DocumentObject) : with_props o (props o) = o.
Proof. destruct o. reflexivity. Qed.

Lemma settled_empty (w : world) : settled ∅ ∅ w = w.
Proof.
  unfold settled. rewrite (right_id_L ∅ (∪)), (left_id_L ∅ (∪)), with_props_id.
  destruct w. reflexivity.
Qed.

Lemma settled_settled (A1 D1 A2 D2 : gmap string pvalue) (w : world) :
  settled A2 D2 (settled A1 D1 w) = settled (A2 ∪ A1) (D1 ∪ D2) w.
Proof.
  unfold settled, with_props. simpl. do 2 f_equal.
  rewrite !(assoc_L (∪)). reflexivity.
Qed.

Lemma settled_twice (A D : gmap string pvalue) (w : world) :
  settled A D (settled A D w) = settled A D w.
Proof.
  rewrite settled_settled. rewrite (idemp_L (∪) A), (idemp_L (∪) D). reflexivity.
Qed.

Lemma PropertiesList_settled (A D : gmap string pvalue) (w : world) :
  PropertiesList (w_obj (settled A D w)) = dom A ∪ PropertiesList (w_obj w) ∪ dom D.
Proof. unfold settled, PropertiesList. simpl. rewrite !dom_union_L. set_solver. Qed.

Lemma ensured_settled (t : ptype) (name : string) (w : world) :
  ensured t name w = settled ∅ {[ name := default_value t ]} w.
Proof.
  unfold ensured, settled. rewrite (left_id_L ∅ (∪)).
  destruct (props (w_obj w) !! name) as [v|] eqn:E.
  - replace (props (w_obj w) ∪ {[name := default_value t]}) with (props (w_obj w)).
    + rewrite with_props_id. destruct w. reflexivity.
    + apply map_eq. intros k. destruct (decide (k = name)) as [->|Hk].
      * rewrite lookup_union_l'; [reflexivity | eauto].
      * rewrite lookup_union_l; [reflexivity|]. apply lookup_singleton_ne. congruence.
  - do 2 f_equal. apply map_eq. intros k. destruct (decide (k = name)) as [->|Hk].
    + rewrite lookup_insert_eq, lookup_union_r by exact E.
      rewrite lookup_singleton_eq. reflexivity.
    + rewrite lookup_insert_ne by congruence.
      rewrite lookup_union_l; [reflexivity|]. apply lookup_singleton_ne. congruence.
Qed.

Lemma assigned_settled (name : string) (v : pvalue) (w : world) :
  assigned name v w = settled {[ name := v ]} ∅ w.
Proof.
  unfold assigned, settled. rewrite (right_id_L ∅ (∪)), insert_union_singleton_l.
  reflexivity.
Qed.

Lemma settles_ret {X : Type} (P : gset string) (x : X) : settles P (mret x : M X).
Proof.
  exists (Ok x), ∅, ∅. rewrite dom_empty_L. repeat split; [set_solver..|].
  intros w _. rewrite settled_empty. reflexivity.
Qed.

Lemma settles_lift {X : Type} (P : gset string) (x : outcome X) : settles P (lift x).
Proof.
  exists x, ∅, ∅. rewrite dom_empty_L. repeat split; [set_solver..|].
  intros w _. rewrite settled_empty. reflexivity.
Qed.

Lemma settles_bind {X Y : Type} (P : gset string) (m : M X) (f : X → M Y) :
  settles P m → (∀ x, settles P (f x)) → settles P (m ≫= f).
Proof.
  intros (r & A & D & HA & HD & Hm) Hf. destruct r as [x|e].
  - destruct (Hf x) as (r' & A' & D' & HA' & HD' & Hfx).
    exists r', (A' ∪ A), (D ∪ D'). rewrite !dom_union_L.
    split; [set_solver|]. split; [set_solver|].
    intros w Hw. rewrite run_bind, (Hm w Hw), Hfx, settled_settled; [reflexivity|].
    rewrite PropertiesList_settled. set_solver.
  - exists (Raise e), A, D. split; [exact HA|]. split; [exact HD|].
    intros w Hw. rewrite run_bind, (Hm w Hw). reflexivity.
Qed.

Lemma settles_ensure_bind {Y : Type} (P : gset string) (t : ptype) (name : string)
    (k : M Y) :
  name ∈ geometry_properties →
  settles (P ∪ {[ name ]}) k →
  settles P (ensure_property t name ≫= λ _, k).
Proof.
  intros Hname (r & A & D & HA & HD & Hk).
  exists r, (A ∪ ∅), ({[ name := default_value t ]} ∪ D).
  rewrite !dom_union_L, dom_empty_L, dom_singleton_L.
  split; [set_solver|]. split; [set_solver|].
  intros w Hw. rewrite run_ensure, Hk.
  - rewrite ensured_settled, settled_settled. reflexivity.
  - rewrite PropertiesList_ensured. set_solver.
Qed.

Lemma settles_setattr (P : gset string) (name : string) (v : pvalue) :
  name ∈ geometry_properties → name ∈ P → settles P (setattr name v).
Proof.
  intros Hgeo Hname. exists (Ok ()), {[ name := v ]}, ∅.
  rewrite dom_singleton_L, dom_empty_L. split; [set_solver|]. split; [set_solver|].
  intros w Hw. rewrite setattr_run by set_solver. rewrite assigned_settled. reflexivity.
Qed.

Lemma settles_for_each {X : Type} (P : gset string) (body : X → M unit) (l : list X) :
  (∀ x, settles P (body x)) → settles P (for_each body l).
Proof.
  intros Hb. induction l as [|x l IH]; simpl.
  - apply settles_ret.
  - apply settles_bind; [apply Hb | intros _; exact IH].
Qed.

Ltac settles_step :=
  match goal with
  | |- settles _ (ensure_property _ _ ≫= _) =>
      apply settles_ensure_bind; [unfold geometry_properties; set_solver|]
  | |- settles _ (setattr _ _ ≫= _) =>
      apply settles_bind;
        [apply settles_setattr; [unfold geometry_properties|]; set_solver | intros ?]
  | |- settles _ (setattr _ _) =>
      apply settles_setattr; [unfold geometry_properties|]; set_solver
  | |- settles _ (lift _ ≫= _) => apply settles_bind; [apply settles_lift | intros ?]
  | |- settles _ (mret _) => apply settles_ret
  | |- settles _ (if ?b then _ else _) => destruct b
  | |- settles _ (match ?x with _ => _ end) => destruct x
  end.

Lemma settles_add_geom_rep (scaling : Q) (rep : entity) :
  settles ∅ (add_geom_rep scaling rep).
Proof.
  unfold add_geom_rep, add_extrusion_properties. repeat settles_step.
Qed.

Lemma settles_pull_from (has_representation : option entity → bool)
    (element : option entity) (ifcfile : option file) :
  settles ∅ (pull_from has_representation element ifcfile).
Proof.
  unfold pull_from. repeat settles_step.
  apply settles_for_each. intros rep. apply settles_add_geom_rep.
Qed.

Section PullAgain.

Variable get_ifc_element : DocumentObject → option entity.
Variable has_representation : option entity → bool.
Variable get_ifcfile : DocumentObject → option file.

(** [X1] A second pull changes nothing.  Provided the helpers of [ifc_tools] find
    the element and the file of an object by its identity, for every world a
    second [add_geom_properties] ends as the first did and leaves the world
    (every property value, the name, the label and the journal) exactly as
    the first left it. *)
Theorem add_geom_properties_idempotent (w : world) :
  (∀ o o', Name o = Name o' →
     get_ifc_element o = get_ifc_element o' ∧ get_ifcfile o = get_ifcfile o') →
  let first := add_geom_properties get_ifc_element has_representation get_ifcfile w in
  add_geom_properties get_ifc_element has_representation get_ifcfile first.2 = first.
Proof.
  intros Hid. cbv zeta. rewrite !add_geom_properties_pull_from.
  set (element := get_ifc_element (w_obj w)).
  set (ifcfile := get_ifcfile (w_obj w)).
  destruct (keeps_identity_pull_from has_representation element ifcfile w) as [Hname _].
  destruct (Hid _ _ Hname) as [-> ->]. fold element ifcfile.
  destruct (settles_pull_from has_representation element ifcfile)
    as (r & A & D & _ & _ & Hrun).
  rewrite (Hrun w) by set_solver. cbn [snd].
  rewrite Hrun by set_solver. rewrite settled_twice. reflexivity.
Qed.

(** [X2] The pull writes geometry properties only: for every world, every
    property of the object whose name is not one of the five geometry
    properties has after [add_geom_properties] the value it had before (and
    is absent if it was absent), whether the call returns or raises. *)
Theorem add_geom_properties_other_properties (w : world) (k : string) :
  k ∉ geometry_properties →
  props (w_obj (add_geom_properties get_ifc_element has_representation
                  get_ifcfile w).2) !! k =
  props (w_obj w) !! k.
Proof.
  intros Hk. rewrite add_geom_properties_pull_from.
  destruct (settles_pull_from has_representation (get_ifc_element (w_obj w))
              (get_ifcfile (w_obj w))) as (r & A & D & HA & HD & Hrun).
  rewrite Hrun by set_solver. unfold settled. simpl.
  rewrite lookup_union_r by (apply not_elem_of_dom; set_solver).
  apply lookup_union_l, not_elem_of_dom. set_solver.
Qed.

End PullAgain.

(** * Further properties of the push *)

(** ** One edit at most *)

Lemma for_return_edits_once (body : entity → M (option bool)) (reps : list entity)
    (w : world) :
  (∀ rep, edits_once w (body rep w)) → edits_once w (for_return body reps w).
Proof.
  intros Hbody. induction reps as [|rep reps IH]; [left; reflexivity|].
  cbn [for_return]. rewrite run_bind.
  destruct (Hbody rep) as [-> | [[e ->] | (product & attributes & ->)]].
  - exact IH.
  - right. left. eauto.
  - right. right. eauto.
Qed.

Ltac edits_once_done :=
  first
    [ left; reflexivity
    | right; left; eexists; reflexivity
    | right; right; eexists _, _; reflexivity ].

Lemma edit_ExtrusionDepth_edits_once (scaling : Q) (prop : string) (rep : entity)
    (w : world) :
  edits_once w (edit_ExtrusionDepth scaling prop rep w).
Proof.
  unfold edit_ExtrusionDepth. rewrite single_body_item_run.
  destruct (body_item rep) as [[item|]|e]; try edits_once_done.
  destruct (is_a item "IfcExtrudedAreaSolid"); try edits_once_done.
  rewrite run_bind. unfold getattr.
  destruct (attribute (w_obj w) prop) as [pv|]; try edits_once_done.
  destruct pv; edits_once_done.
Qed.

Lemma edit_ExtrusionDirection_edits_once (prop : string) (rep : entity) (w : world) :
  edits_once w (edit_ExtrusionDirection prop rep w).
Proof.
  unfold edit_ExtrusionDirection. rewrite single_body_item_run.
  destruct (body_item rep) as [[item|]|e]; try edits_once_done.
  destruct (is_a item "IfcExtrudedAreaSolid"); try edits_once_done.
  destruct (attr_entity item "ExtrudedDirection") as [dir|e]; try edits_once_done.
  rewrite run_lift_Ok, run_bind. unfold getattr.
  destruct (attribute (w_obj w) prop) as [pv|]; try edits_once_done.
  destruct pv; edits_once_done.
Qed.

Lemma edit_Rectangle_edits_once (dim : string) (scaling : Q) (prop : string)
    (rep : entity) (w : world) :
  edits_once w (edit_Rectangle dim scaling prop rep w).
Proof.
  unfold edit_Rectangle. rewrite single_body_item_run.
  destruct (body_item rep) as [[item|]|e]; try edits_once_done.
  destruct (is_a item "IfcExtrudedAreaSolid"); try edits_once_done.
  destruct (attr_entity item "SweptArea") as [swept|e]; try edits_once_done.
  rewrite run_lift_Ok.
  destruct (is_a swept "IfcRectangleProfileDef"); try edits_once_done.
  rewrite run_bind. unfold getattr.
  destruct (attribute (w_obj w) prop) as [pv|]; try edits_once_done.
  destruct pv; edits_once_done.
Qed.

Lemma set_geom_dispatch_edits_once (element : option entity) (f : option file)
    (scaling : Q) (prop : string) (w : world) :
  prop ≠ "PolylinePoints" →
  edits_once w (set_geom_dispatch element f scaling prop w).
Proof.
  intros Hprop. unfold set_geom_dispatch.
  destruct (representations element) as [reps|e] eqn:Hreps.
  - repeat match goal with
    | |- context [String.eqb prop ?s] => destruct (String.eqb_spec prop s)
    end; try contradiction; try edits_once_done;
      rewrite run_lift_Ok; apply for_return_edits_once; intros rep;
      auto using edit_ExtrusionDepth_edits_once, edit_ExtrusionDirection_edits_once,
        edit_Rectangle_edits_once.
  - repeat match goal with
    | |- context [String.eqb prop ?s] => destruct (String.eqb_spec prop s)
    end; try contradiction; edits_once_done.
Qed.

Section PushOnce.

Variable get_ifc_element : DocumentObject → option entity.
Variable has_representation : option entity → bool.
Variable get_ifcfile : DocumentObject → option file.

(** [X3] One edit at most, and [True] exactly with it.  For every world and every
    property name other than [PolylinePoints], [set_geom_property] does one
    of three things: it returns [False] and leaves the world as it was; it
    raises and leaves the world as it was; or it returns [True] and the
    journal has grown by exactly one [edit_attributes], the object being as
    it was. *)
Theorem set_geom_property_edits_once (prop : string) (w : world) :
  prop ≠ "PolylinePoints" →
  let pushed := set_geom_property get_ifc_element has_representation get_ifcfile prop w in
  pushed = (Ok false, w) ∨
  (∃ e, pushed = (Raise e, w)) ∨
  (∃ product attributes,
     pushed = (Ok true, journaled (edit_attributes product attributes) w)).
Proof.
  intros Hprop. cbv zeta. unfold set_geom_property. rewrite run_bind. simpl.
  destruct (has_representation (get_ifc_element (w_obj w))); simpl; [|left; reflexivity].
  destruct (calculate_unit_scale (get_ifcfile (w_obj w))) as [s|e];
    [|right; left; eexists; reflexivity].
  rewrite run_lift_Ok.
  destruct (push_scaling s) as [k|e]; [|right; left; eexists; reflexivity].
  rewrite run_lift_Ok, run_bind. unfold getattr.
  destruct (attribute (w_obj w) prop) as [pv|]; [|right; left; eexists; reflexivity].
  rewrite run_bind.
  destruct (set_geom_dispatch_edits_once (get_ifc_element (w_obj w))
              (get_ifcfile (w_obj w)) k prop w Hprop)
    as [-> | [[e ->] | (product & attributes & ->)]].
  - left. reflexivity.
  - right. left. eexists. reflexivity.
  - right. right. eexists _, _. reflexivity.
Qed.

(** [X4] A name that is no attribute of the object.  For an element with a
    representation, in a file with a unit scale other than zero,
    [set_geom_property] called with a name under which the object has no
    attribute at all (no property, none of [Name], [Label],
    [PropertiesList] and [addProperty], and no further attribute or method
    of the host) raises [AttributeError] from its debug output, before any
    loop is entered, and leaves the world as it was; this holds for the
    five geometry properties as for any other name. *)
Theorem set_geom_property_missing_attribute (prop : string) (w : world) (f : file) :
  has_representation (get_ifc_element (w_obj w)) = true →
  get_ifcfile (w_obj w) = Some f →
  ¬ (unit_scale f == 0)%Q →
  ¬ hasattr (w_obj w) prop →
  set_geom_property get_ifc_element has_representation get_ifcfile prop w =
  (Raise (AttributeError OnDocumentObject), w).
Proof.
  intros Hrep Hfile Hscale Hprop. apply eq_None_not_Some in Hprop.
  unfold set_geom_property. rewrite run_bind. simpl. rewrite Hrep, Hfile. simpl.
  rewrite run_lift_Ok. unfold push_scaling.
  destruct (Qeq_bool (unit_scale f) 0) eqn:E;
    [apply Qeq_bool_iff in E; contradiction|].
  rewrite run_lift_Ok, run_bind. unfold getattr. rewrite Hprop. reflexivity.
Qed.

(** [X5] A unit scale of zero.  For an element with a representation, in a file
    whose unit scale is zero, [set_geom_property] raises
    [ZeroDivisionError] (from [0.001 / scaling]) for every property name,
    before it reads the property, and leaves the world as it was. *)
Theorem set_geom_property_zero_scale (prop : string) (w : world) (f : file) :
  has_representation (get_ifc_element (w_obj w)) = true →
  get_ifcfile (w_obj w) = Some f →
  (unit_scale f == 0)%Q →
  set_geom_property get_ifc_element has_representation get_ifcfile prop w =
  (Raise ZeroDivisionError, w).
Proof.
  intros Hrep Hfile Hscale.
  unfold set_geom_property. rewrite run_bind. simpl. rewrite Hrep, Hfile. simpl.
  rewrite run_lift_Ok. unfold push_scaling.
  apply Qeq_bool_iff in Hscale. rewrite Hscale. reflexivity.
Qed.

End PushOnce.

(** * Pull and push together *)

Lemma extrusion_of_Some (rep ext : entity) :
  extrusion_of rep = Ok (Some ext) →
  body_item rep = Ok (Some ext) ∧ is_a ext "IfcExtrudedAreaSolid" = true.
Proof.
  unfold extrusion_of. destruct (body_item rep) as [[item|]|e]; simpl; try discriminate.
  destruct (is_a item "IfcExtrudedAreaSolid") eqn:E; [|discriminate].
  intros [= ->]. auto.
Qed.

(** What the pull loop passes over, the loops of the scalar properties pass
    over. *)
Lemma skipped_body_item (rep : entity) :
  skipped rep = true →
  body_item rep = Ok None ∨
  ∃ item, body_item rep = Ok (Some item) ∧ is_a item "IfcExtrudedAreaSolid" = false.
Proof.
  unfold skipped, extrusion_of.
  destruct (body_item rep) as [[item|]|e]; simpl; try discriminate; [|auto].
  destruct (is_a item "IfcExtrudedAreaSolid") eqn:E; [discriminate|]. eauto.
Qed.

Lemma edit_ExtrusionDepth_skipped (scaling : Q) (prop : string) (rep : entity)
    (w : world) :
  skipped rep = true → edit_ExtrusionDepth scaling prop rep w = (Ok None, w).
Proof.
  intros [H | (item & H & Hext)]%skipped_body_item;
    unfold edit_ExtrusionDepth; rewrite single_body_item_run, H; [reflexivity|].
  rewrite Hext. reflexivity.
Qed.

Lemma edit_ExtrusionDirection_skipped (prop : string) (rep : entity) (w : world) :
  skipped rep = true → edit_ExtrusionDirection prop rep w = (Ok None, w).
Proof.
  intros [H | (item & H & Hext)]%skipped_body_item;
    unfold edit_ExtrusionDirection; rewrite single_body_item_run, H; [reflexivity|].
  rewrite Hext. reflexivity.
Qed.

Lemma edit_Rectangle_skipped (dim : string) (scaling : Q) (prop : string)
    (rep : entity) (w : world) :
  skipped rep = true → edit_Rectangle dim scaling prop rep w = (Ok None, w).
Proof.
  intros [H | (item & H & Hext)]%skipped_body_item;
    unfold edit_Rectangle; rewrite single_body_item_run, H; [reflexivity|].
  rewrite Hext. reflexivity.
Qed.

(** The loop of each scalar property on the first extrusion body. *)
Lemma for_return_ExtrusionDepth_first (k q : Q) (pre post : list entity)
    (rep ext : entity) (w : world) :
  forallb skipped pre = true →
  extrusion_of rep = Ok (Some ext) →
  props (w_obj w) !! "ExtrusionDepth" = Some (PLength q) →
  for_return (edit_ExtrusionDepth k "ExtrusionDepth") (pre ++ rep :: post) w =
  (Ok (Some true), journaled (edit_attributes ext {[ "Depth" := VNum (q * k) ]}) w).
Proof.
  intros Hpre [Hitem Hext]%extrusion_of_Some Hprop.
  rewrite (for_return_skip _ skipped skipped)
    by auto using edit_ExtrusionDepth_skipped.
  apply for_return_first.
  unfold edit_ExtrusionDepth. rewrite single_body_item_run, Hitem, Hext.
  rewrite (run_getattr _ _ _ _ Hprop). reflexivity.
Qed.

Lemma for_return_ExtrusionDirection_first (v : Vector) (pre post : list entity)
    (rep ext dir : entity) (w : world) :
  forallb skipped pre = true →
  extrusion_of rep = Ok (Some ext) →
  attr_entity ext "ExtrudedDirection" = Ok dir →
  props (w_obj w) !! "ExtrusionDirection" = Some (PVector v) →
  for_return (edit_ExtrusionDirection "ExtrusionDirection") (pre ++ rep :: post) w =
  (Ok (Some true),
   journaled (edit_attributes dir {[ "DirectionRatios" := VNums (tuple v) ]}) w).
Proof.
  intros Hpre [Hitem Hext]%extrusion_of_Some Hdir Hprop.
  rewrite (for_return_skip _ skipped skipped)
    by auto using edit_ExtrusionDirection_skipped.
  apply for_return_first.
  unfold edit_ExtrusionDirection. rewrite single_body_item_run, Hitem, Hext.
  rewrite (run_lift_ok _ _ _ _ Hdir), (run_getattr _ _ _ _ Hprop). reflexivity.
Qed.

Lemma for_return_Rectangle_first (dim prop : string) (k q : Q)
    (pre post : list entity) (rep ext swept : entity) (w : world) :
  forallb skipped pre = true →
  extrusion_of rep = Ok (Some ext) →
  attr_entity ext "SweptArea" = Ok swept →
  is_a swept "IfcRectangleProfileDef" = true →
  props (w_obj w) !! prop = Some (PLength q) →
  for_return (edit_Rectangle dim k prop) (pre ++ rep :: post) w =
  (Ok (Some true), journaled (edit_attributes swept {[ dim := VNum (q * k) ]}) w).
Proof.
  intros Hpre [Hitem Hext]%extrusion_of_Some Hswept Hrect Hprop.
  rewrite (for_return_skip _ skipped skipped)
    by auto using edit_Rectangle_skipped.
  apply for_return_first.
  unfold edit_Rectangle. rewrite single_body_item_run, Hitem, Hext.
  rewrite (run_lift_ok _ _ _ _ Hswept), Hrect, (run_getattr _ _ _ _ Hprop).
  reflexivity.
Qed.

Lemma journal_ensured (t : ptype) (name : string) (w : world) :
  w_journal (ensured t name w) = w_journal w.
Proof. unfold ensured. destruct (props (w_obj w) !! name); reflexivity. Qed.

Lemma Name_ensured (t : ptype) (name : string) (w : world) :
  Name (w_obj (ensured t name w)) = Name (w_obj w).
Proof. unfold ensured. destruct (props (w_obj w) !! name); reflexivity. Qed.

Lemma journal_assigned (name : string) (v : pvalue) (w : world) :
  w_journal (assigned name v w) = w_journal w.
Proof. reflexivity. Qed.

Lemma Name_assigned (name : string) (v : pvalue) (w : world) :
  Name (w_obj (assigned name v w)) = Name (w_obj w).
Proof. reflexivity. Qed.

(** The pull of an extrusion of a rectangle succeeds and sets the four
    scalar properties. *)
Lemma add_extrusion_properties_rectangle (s : Q) (ext dir swept : entity)
    (depth : Q) (v : Vector) (x y : Q) (w : world) :
  rectangle_extrusion ext dir swept depth v x y →
  let r := add_extrusion_properties s ext w in
  r.1 = Ok () ∧
  w_journal r.2 = w_journal w ∧
  Name (w_obj r.2) = Name (w_obj w) ∧
  props (w_obj r.2) !! "ExtrusionDepth" = Some (PLength (depth * s)) ∧
  props (w_obj r.2) !! "ExtrusionDirection" = Some (PVector v) ∧
  props (w_obj r.2) !! "RectangleLength" = Some (PLength (x * s)) ∧
  props (w_obj r.2) !! "RectangleWidth" = Some (PLength (y * s)).
Proof.
  intros (Hdepth & Hdir & Hratios & Hswept & Hrect & Hx & Hy). cbv zeta.
  assert (Hv : FreeCAD_Vector (tuple v) = Ok v) by (destruct v; reflexivity).
  unfold add_extrusion_properties. repeat pull_step.
  rewrite Hrect. repeat pull_step. cbn [fst snd].
  repeat first [ rewrite journal_assigned | rewrite journal_ensured
               | rewrite Name_assigned | rewrite Name_ensured ].
  pull_lookup. repeat split; reflexivity.
Qed.

Section PullThenPush.

Variable get_ifc_element : DocumentObject → option entity.
Variable has_representation : option entity → bool.
Variable get_ifcfile : DocumentObject → option file.

Hypothesis by_identity : ∀ o o', Name o = Name o' →
  get_ifc_element o = get_ifc_element o' ∧ get_ifcfile o = get_ifcfile o'.

(** The push of each scalar property on a world whose element has the
    extrusion [ext] as its first extrusion body. *)
Lemma push_scalars_first (w : world) (f : file) (pre post : list entity)
    (rep ext dir swept : entity) (qd ql qw : Q) (v : Vector) :
  has_representation (get_ifc_element (w_obj w)) = true →
  get_ifcfile (w_obj w) = Some f →
  ¬ (unit_scale f == 0)%Q →
  representations (get_ifc_element (w_obj w)) = Ok (pre ++ rep :: post) →
  forallb skipped pre = true →
  extrusion_of rep = Ok (Some ext) →
  attr_entity ext "ExtrudedDirection" = Ok dir →
  attr_entity ext "SweptArea" = Ok swept →
  is_a swept "IfcRectangleProfileDef" = true →
  props (w_obj w) !! "ExtrusionDepth" = Some (PLength qd) →
  props (w_obj w) !! "ExtrusionDirection" = Some (PVector v) →
  props (w_obj w) !! "RectangleLength" = Some (PLength ql) →
  props (w_obj w) !! "RectangleWidth" = Some (PLength qw) →
  let push := λ prop,
    set_geom_property get_ifc_element has_representation get_ifcfile prop w in
  let k := push_factor (unit_scale f) in
  push "ExtrusionDepth" =
    (Ok true, journaled (edit_attributes ext {[ "Depth" := VNum (qd * k) ]}) w) ∧
  push "ExtrusionDirection" =
    (Ok true,
     journaled (edit_attributes dir {[ "DirectionRatios" := VNums (tuple v) ]}) w) ∧
  push "RectangleLength" =
    (Ok true, journaled (edit_attributes swept {[ "XDim" := VNum (ql * k) ]}) w) ∧
  push "RectangleWidth" =
    (Ok true, journaled (edit_attributes swept {[ "YDim" := VNum (qw * k) ]}) w).
Proof.
  intros Hrep Hfile Hscale Hreps Hpre Hext Hdir Hswept Hrect Pd Pv Pl Pw. cbv zeta.
  repeat split.
  - rewrite (set_geom_property_dispatch _ _ _ _ w f) by eauto.
    rewrite run_bind. unfold set_geom_dispatch.
    change (String.eqb "ExtrusionDepth" "ExtrusionDepth") with true. cbv iota.
    rewrite (run_lift_ok _ _ _ _ Hreps).
    rewrite (for_return_ExtrusionDepth_first _ qd _ _ _ ext) by assumption.
    reflexivity.
  - rewrite (set_geom_property_dispatch _ _ _ _ w f) by eauto.
    rewrite run_bind. unfold set_geom_dispatch.
    change (String.eqb "ExtrusionDirection" "ExtrusionDepth") with false.
    change (String.eqb "ExtrusionDirection" "ExtrusionDirection") with true. cbv iota.
    rewrite (run_lift_ok _ _ _ _ Hreps).
    rewrite (for_return_ExtrusionDirection_first v _ _ _ ext dir) by assumption.
    reflexivity.
  - rewrite (set_geom_property_dispatch _ _ _ _ w f) by eauto.
    rewrite run_bind. unfold set_geom_dispatch.
    change (String.eqb "RectangleLength" "ExtrusionDepth") with false.
    change (String.eqb "RectangleLength" "ExtrusionDirection") with false.
    change (String.eqb "RectangleLength" "RectangleLength") with true. cbv iota.
    rewrite (run_lift_ok _ _ _ _ Hreps).
    rewrite (for_return_Rectangle_first _ _ _ ql _ _ _ ext swept) by assumption.
    reflexivity.
  - rewrite (set_geom_property_dispatch _ _ _ _ w f) by eauto.
    rewrite run_bind. unfold set_geom_dispatch.
    change (String.eqb "RectangleWidth" "ExtrusionDepth") with false.
    change (String.eqb "RectangleWidth" "ExtrusionDirection") with false.
    change (String.eqb "RectangleWidth" "RectangleLength") with false.
    change (String.eqb "RectangleWidth" "RectangleWidth") with true. cbv iota.
    rewrite (run_lift_ok _ _ _ _ Hreps).
    rewrite (for_return_Rectangle_first _ _ _ qw _ _ _ ext swept) by assumption.
    reflexivity.
Qed.

(** [X6] Pull, then push.  Let the only extrusion body of the element be an
    extrusion of a rectangle, in a file with a unit scale [s] other than
    zero.  After [add_geom_properties], which succeeds, a
    [set_geom_property] of each of the four scalar properties returns [True]
    and issues one edit on the entity the value was pulled from: on the
    solid the depth, on its direction the ratios as they were, on its
    profile [XDim] and [YDim]; each length is written as the code computes
    it, the value of the file times [s * 1000] (the pull) times
    [0.001 / s] (the push). *)
Theorem pull_then_push_round_trip (w : world) (f : file) (pre post : list entity)
    (rep ext dir swept : entity) (depth : Q) (v : Vector) (x y : Q) :
  has_representation (get_ifc_element (w_obj w)) = true →
  get_ifcfile (w_obj w) = Some f →
  ¬ (unit_scale f == 0)%Q →
  representations (get_ifc_element (w_obj w)) = Ok (pre ++ rep :: post) →
  forallb skipped (pre ++ post) = true →
  extrusion_of rep = Ok (Some ext) →
  rectangle_extrusion ext dir swept depth v x y →
  let pulled := add_geom_properties get_ifc_element has_representation get_ifcfile w in
  let push := λ prop,
    set_geom_property get_ifc_element has_representation get_ifcfile prop pulled.2 in
  let s := unit_scale f in
  pulled.1 = Ok () ∧
  push "ExtrusionDepth" =
    (Ok true,
     journaled (edit_attributes ext
                  {[ "Depth" := VNum (depth * (s * 1000) * push_factor s) ]})
               pulled.2) ∧
  push "ExtrusionDirection" =
    (Ok true,
     journaled (edit_attributes dir {[ "DirectionRatios" := VNums (tuple v) ]})
               pulled.2) ∧
  push "RectangleLength" =
    (Ok true,
     journaled (edit_attributes swept
                  {[ "XDim" := VNum (x * (s * 1000) * push_factor s) ]})
               pulled.2) ∧
  push "RectangleWidth" =
    (Ok true,
     journaled (edit_attributes swept
                  {[ "YDim" := VNum (y * (s * 1000) * push_factor s) ]})
               pulled.2).
Proof.
  intros Hrep Hfile Hscale Hreps Hskip Hext Hshape. cbv zeta.
  rewrite (add_geom_properties_single_extrusion _ _ _ w f pre post rep ext)
    by assumption.
  destruct (add_extrusion_properties_rectangle (unit_scale f * 1000) ext dir swept
              depth v x y w Hshape) as (Hok & _ & Hname & Pd & Pv & Pl & Pw).
  destruct (add_extrusion_properties (unit_scale f * 1000) ext w) as [o w1].
  cbn [fst snd] in *. subst o.
  destruct (by_identity _ _ Hname) as [He Hf].
  destruct Hshape as (_ & Hdir & _ & Hswept & Hrect & _ & _).
  rewrite forallb_app in Hskip. apply andb_prop in Hskip as [Hpre _].
  destruct (push_scalars_first w1 f pre post rep ext dir swept
              (depth * (unit_scale f * 1000)) (x * (unit_scale f * 1000))
              (y * (unit_scale f * 1000)) v)
    as (E1 & E2 & E3 & E4); try assumption; try congruence.
  split; [reflexivity|]. split; [exact E1|]. split; [exact E2|].
  split; [exact E3|exact E4].
Qed.

(** [X7] Several bodies: the pull reads the last, the push writes the first.
    Let the element have two extrusion bodies, each an extrusion of a
    rectangle, the second of depth [depth2], in a file with a unit scale
    [s] other than zero.  [add_geom_properties] succeeds and leaves in
    [ExtrusionDepth] the depth of the second body, [depth2 * (s * 1000)]; a
    [set_geom_property] of [ExtrusionDepth] on the object so pulled returns
    [True] and writes the value of the property times [0.001 / s] on the
    solid of the first body. *)
Theorem pull_last_push_first (w : world) (f : file) (pre mid post : list entity)
    (rep1 ext1 dir1 swept1 : entity) (depth1 : Q) (v1 : Vector) (x1 y1 : Q)
    (rep2 ext2 dir2 swept2 : entity) (depth2 : Q) (v2 : Vector) (x2 y2 : Q) :
  has_representation (get_ifc_element (w_obj w)) = true →
  get_ifcfile (w_obj w) = Some f →
  ¬ (unit_scale f == 0)%Q →
  representations (get_ifc_element (w_obj w)) =
    Ok (pre ++ rep1 :: mid ++ rep2 :: post) →
  forallb skipped (pre ++ mid ++ post) = true →
  extrusion_of rep1 = Ok (Some ext1) →
  rectangle_extrusion ext1 dir1 swept1 depth1 v1 x1 y1 →
  extrusion_of rep2 = Ok (Some ext2) →
  rectangle_extrusion ext2 dir2 swept2 depth2 v2 x2 y2 →
  let pulled := add_geom_properties get_ifc_element has_representation get_ifcfile w in
  pulled.1 = Ok () ∧
  props (w_obj pulled.2) !! "ExtrusionDepth" =
    Some (PLength (depth2 * (unit_scale f * 1000))) ∧
  set_geom_property get_ifc_element has_representation get_ifcfile
    "ExtrusionDepth" pulled.2 =
  (Ok true,
   journaled (edit_attributes ext1
                {[ "Depth" := VNum (depth2 * (unit_scale f * 1000) *
                                    push_factor (unit_scale f)) ]})
             pulled.2).
Proof.
  intros Hrep Hfile Hscale Hreps Hskip Hext1 Hshape1 Hext2 Hshape2. cbv zeta.
  rewrite !forallb_app in Hskip.
  apply andb_prop in Hskip as [Hpre [Hmid Hpost]%andb_prop].
  set (s := (unit_scale f * 1000)%Q).
  assert (Hpull : add_geom_properties get_ifc_element has_representation get_ifcfile w =
                  (add_extrusion_properties s ext1 ≫= λ _,
                   add_extrusion_properties s ext2) w).
  { unfold add_geom_properties. rewrite run_bind. simpl. rewrite Hrep, Hfile. simpl.
    rewrite (run_lift_ok _ (unit_scale f)) by reflexivity.
    rewrite (run_lift_ok _ _ _ _ Hreps).
    rewrite for_each_app, run_bind, for_each_skipped by exact Hpre.
    cbn [for_each]. rewrite !run_bind, add_geom_rep_extrusion_of, Hext1.
    change (pull_scaling (unit_scale f)) with s.
    destruct (add_extrusion_properties s ext1 w) as [[[]|e] w1]; [|reflexivity].
    apply for_each_single_extrusion; [|exact Hext2].
    rewrite forallb_app, Hmid, Hpost. reflexivity. }
  rewrite Hpull, run_bind.
  destruct (add_extrusion_properties_rectangle s ext1 dir1 swept1
              depth1 v1 x1 y1 w Hshape1) as (Hok1 & _ & Hname1 & _).
  destruct (add_extrusion_properties s ext1 w) as [o1 w1].
  cbn [fst snd] in *. subst o1.
  destruct (add_extrusion_properties_rectangle s ext2 dir2 swept2
              depth2 v2 x2 y2 w1 Hshape2) as (Hok2 & _ & Hname2 & Pd & Pv & Pl & Pw).
  destruct (add_extrusion_properties s ext2 w1) as [o2 w2].
  cbn [fst snd] in *. subst o2.
  destruct (by_identity (w_obj w2) (w_obj w)) as [He Hf]; [congruence|].
  destruct Hshape1 as (_ & Hdir & _ & Hswept & Hrect & _ & _).
  destruct (push_scalars_first w2 f pre (mid ++ rep2 :: post) rep1 ext1 dir1 swept1
              (depth2 * s) (x2 * s) (y2 * s) v2) as (E1 & _);
    try assumption; try congruence.
  split; [reflexivity|]. split; [exact Pd|exact E1].
Qed.

End PullThenPush.

(** * The count of pulled points *)

Lemma omap_list_length {X Y : Type} (g : X → outcome Y) (l : list X) (l' : list Y) :
  omap_list g l = Ok l' → length l' = length l.
Proof.
  revert l'. induction l as [|a l IH]; intros l'; simpl.
  - intros [= <-]. reflexivity.
  - destruct (g a) as [b|e]; [|discriminate].
    destruct (omap_list g l) as [bs|e]; [|discriminate].
    intros [= <-]. simpl. rewrite (IH bs); reflexivity.
Qed.

Lemma flat_point_is_Some (s : Q) (c : list Q) :
  is_Some (flat_point s c) ↔ length c = 2%nat.
Proof.
  destruct c as [|x [|y [|z c]]]; simpl; split;
    intros H; try (destruct H; discriminate); try discriminate; eauto.
Qed.

Lemma length_flat_points (s : Q) (coords : list (list Q)) :
  length (omap (flat_point s) coords) ≤ length coords ∧
  (length (omap (flat_point s) coords) = length coords ↔
   forallb (λ c, length c =? 2) coords = true).
Proof.
  induction coords as [|c coords [IH1 IH2]]; [simpl; split; [lia | split; reflexivity]|].
  cbn [omap list_omap forallb length].
  destruct (flat_point s c) as [v|] eqn:E.
  - assert (Hc : length c = 2%nat) by (apply (flat_point_is_Some s); eauto).
    rewrite Hc. cbn [length Nat.eqb andb]. split; [lia|].
    rewrite <- IH2. lia.
  - assert (Hc : length c ≠ 2%nat)
      by (intros H%(flat_point_is_Some s); destruct H; congruence).
    apply Nat.eqb_neq in Hc. rewrite Hc. cbn [andb]. split; [lia|].
    split; [lia | discriminate].
Qed.

Section PullCount.

Variable get_ifc_element : DocumentObject → option entity.
Variable has_representation : option entity → bool.
Variable get_ifcfile : DocumentObject → option file.

(** [X8] The counts of points.  Let the only extrusion body of the element be an
    extrusion of a closed polyline whose points all have at least two
    coordinates.  Then [add_geom_properties] succeeds, [PolylinePoints] holds
    at most as many vectors as the polyline has points, and exactly as many
    if and only if every point of the polyline has exactly two
    coordinates. *)
Theorem add_geom_properties_point_count (w : world) (f : file)
    (pre post : list entity) (rep ext : entity) (pts : list entity)
    (coords : list (list Q)) :
  has_representation (get_ifc_element (w_obj w)) = true →
  get_ifcfile (w_obj w) = Some f →
  representations (get_ifc_element (w_obj w)) = Ok (pre ++ rep :: post) →
  forallb skipped (pre ++ post) = true →
  extrusion_of rep = Ok (Some ext) →
  polyline_extrusion ext pts coords →
  forallb (λ c, 2 <=? length c) coords = true →
  let pulled := add_geom_properties get_ifc_element has_representation get_ifcfile w in
  pulled.1 = Ok () ∧
  ∃ vectors,
    props (w_obj pulled.2) !! "PolylinePoints" = Some (PVectorList vectors) ∧
    length vectors ≤ length pts ∧
    (length vectors = length pts ↔ forallb (λ c, length c =? 2) coords = true).
Proof.
  intros Hrep Hfile Hreps Hskip Hext
    (depth & dir & v & swept & curve & Hdepth & Hdir & Hratios & Hswept & Hrect &
     Hclosed & Hcurve & Hpoly & Hpts & Hcoords) Hlen. cbv zeta.
  rewrite (add_geom_properties_single_extrusion _ _ _ w f pre post rep ext)
    by assumption.
  set (s := (unit_scale f * 1000)%Q).
  assert (Hv : FreeCAD_Vector (tuple v) = Ok v) by (destruct v; reflexivity).
  pose proof (polyline_vectors_flat s curve pts coords Hpts Hcoords Hlen) as Hvs.
  unfold add_extrusion_properties. repeat pull_step.
  rewrite Hrect, Hclosed. repeat pull_step. rewrite Hpoly. repeat pull_step.
  cbn [fst snd]. pull_lookup. split; [reflexivity|].
  exists (omap (flat_point s) coords). split; [reflexivity|].
  rewrite <- (omap_list_length _ _ _ Hcoords). apply length_flat_points.
Qed.

End PullCount.

(** * The slot of the context menu *)

Section RevealChildrenFacts.

Variable document : Type.
Variable module_dir : string.
Variable get_ifcfile : DocumentObject → option file.
Variable get_children : DocumentObject → file → list entity.
Variable create_children : DocumentObject → file → document → document.

(** [X9] The action that is offered acts.  On a provider attached to the view
    object, whenever [setupContextMenu] has added the action to the menu,
    the object of the view has a file in which it has children, the slot of
    the action is the [revealChildren] of that provider, and
    [revealChildren] does not fail: it calls [create_children] on that
    object and that file. *)
Theorem offered_action_creates_children (self : ifc_vp_object) (vobj : ViewObject)
    (menu : list QAction) (doc : document) :
  let attached := attach self vobj in
  let shown := setupContextMenu module_dir get_ifcfile get_children attached vobj menu in
  shown ≠ menu →
  ∃ ifcfile action,
    shown = menu ++ [action] ∧
    action_triggered action = [revealChildren_of attached] ∧
    get_ifcfile (vobj_Object vobj) = Some ifcfile ∧
    get_children (vobj_Object vobj) ifcfile ≠ [] ∧
    revealChildren document get_ifcfile create_children attached doc =
      Some (create_children (vobj_Object vobj) ifcfile doc).
Proof.
  cbv zeta. unfold setupContextMenu, hasChildren, revealChildren, attach. simpl.
  destruct (get_ifcfile (vobj_Object vobj)) as [ifcfile|]; [|congruence].
  destruct (get_children (vobj_Object vobj) ifcfile) as [|c cs] eqn:E; [congruence|].
  intros _. exists ifcfile, (reveal_action module_dir (mk_ifc_vp_object (Some (vobj_Object vobj)))).
  rewrite E. repeat split; try reflexivity. discriminate.
Qed.

End RevealChildrenFacts.

(** * Instances of the further properties *)

Section FurtherInstances.

Import Sample.

#[local] Open Scope Q_scope.

Lemma mm_scale_not_zero : ¬ (unit_scale mm_file == 0).
Proof. intros H. vm_compute in H. discriminate H. Qed.

Lemma rect_solid_shape :
  rectangle_extrusion rect_solid up rect_profile 3 (mkVector 0 0 1) 5 (1 # 5).
Proof. repeat split; reflexivity. Qed.

Lemma rect_solid2_shape :
  rectangle_extrusion rect_solid2 up rect_profile2 9 (mkVector 0 0 1) 7 (1 # 2).
Proof. repeat split; reflexivity. Qed.

(** The rectangular wall, pulled twice. *)
Lemma add_geom_properties_idempotent_witness :
  (∀ o o', Name o = Name o' →
     wall_element o = wall_element o' ∧ mm_ifcfile o = mm_ifcfile o') ∧
  pull rect_wall (pull rect_wall fresh_world).2 = pull rect_wall fresh_world.
Proof.
  assert (H : ∀ o o', Name o = Name o' →
     wall_element o = wall_element o' ∧ mm_ifcfile o = mm_ifcfile o')
    by (intros o o' _; split; reflexivity).
  exact (conj H (add_geom_properties_idempotent wall_element has_representation
                   mm_ifcfile fresh_world H)).
Defined.

(** The label of the wall across a pull. *)
Lemma add_geom_properties_other_properties_witness :
  ("Label" ∉ geometry_properties) ∧
  props (w_obj (pull rect_wall fresh_world).2) !! "Label" = props fresh_obj !! "Label".
Proof.
  assert (H : "Label" ∉ geometry_properties)
    by (unfold geometry_properties; set_solver).
  exact (conj H (add_geom_properties_other_properties wall_element has_representation
                   mm_ifcfile fresh_world "Label" H)).
Defined.

(** The width of the wall with two bodies. *)
Lemma set_geom_property_edits_once_witness :
  "RectangleWidth" ≠ "PolylinePoints" ∧
  (push two_body_wall "RectangleWidth" (pulled two_body_wall) =
     (Ok false, pulled two_body_wall) ∨
   (∃ e, push two_body_wall "RectangleWidth" (pulled two_body_wall) =
           (Raise e, pulled two_body_wall)) ∨
   (∃ product attributes,
      push two_body_wall "RectangleWidth" (pulled two_body_wall) =
        (Ok true, journaled (edit_attributes product attributes)
                            (pulled two_body_wall)))).
Proof.
  assert (H : "RectangleWidth" ≠ "PolylinePoints") by discriminate.
  exact (conj H (set_geom_property_edits_once (element_is (Some two_body_wall))
                   has_representation mm_ifcfile "RectangleWidth"
                   (pulled two_body_wall) H)).
Defined.

(** The length of a rectangle asked of the triangular slab, which has no such
    property. *)
Lemma set_geom_property_missing_attribute_witness :
  has_representation (element_is (Some tri_slab) (w_obj (pulled tri_slab))) = true ∧
  mm_ifcfile (w_obj (pulled tri_slab)) = Some mm_file ∧
  (¬ (unit_scale mm_file == 0)) ∧
  (¬ hasattr (w_obj (pulled tri_slab)) "RectangleLength") ∧
  push tri_slab "RectangleLength" (pulled tri_slab) =
    (Raise (AttributeError OnDocumentObject), pulled tri_slab).
Proof.
  assert (H1 : has_representation
                 (element_is (Some tri_slab) (w_obj (pulled tri_slab))) = true)
    by reflexivity.
  assert (H2 : mm_ifcfile (w_obj (pulled tri_slab)) = Some mm_file) by reflexivity.
  assert (H3 : ¬ hasattr (w_obj (pulled tri_slab)) "RectangleLength")
    by (intros [v Hv]; vm_compute in Hv; discriminate Hv).
  exact (conj H1 (conj H2 (conj mm_scale_not_zero (conj H3
           (set_geom_property_missing_attribute (element_is (Some tri_slab))
              has_representation mm_ifcfile "RectangleLength" (pulled tri_slab)
              mm_file H1 H2 mm_scale_not_zero H3))))).
Defined.

(** The wall in a file whose unit scale is zero. *)
Lemma set_geom_property_zero_scale_witness :
  has_representation (wall_element (w_obj (pulled rect_wall))) = true ∧
  file_is (Some null_file) (w_obj (pulled rect_wall)) = Some null_file ∧
  unit_scale null_file == 0 ∧
  set_geom_property wall_element has_representation (file_is (Some null_file))
    "ExtrusionDepth" (pulled rect_wall) =
    (Raise ZeroDivisionError, pulled rect_wall).
Proof.
  assert (H1 : has_representation (wall_element (w_obj (pulled rect_wall))) = true)
    by reflexivity.
  assert (H2 : file_is (Some null_file) (w_obj (pulled rect_wall)) = Some null_file)
    by reflexivity.
  assert (H3 : unit_scale null_file == 0) by reflexivity.
  exact (conj H1 (conj H2 (conj H3
           (set_geom_property_zero_scale wall_element has_representation
              (file_is (Some null_file)) "ExtrusionDepth" (pulled rect_wall)
              null_file H1 H2 H3)))).
Defined.

(** The rectangular wall, pulled and pushed back. *)
Lemma pull_then_push_round_trip_witness :
  (∀ o o', Name o = Name o' →
     wall_element o = wall_element o' ∧ mm_ifcfile o = mm_ifcfile o') ∧
  has_representation (wall_element fresh_obj) = true ∧
  mm_ifcfile fresh_obj = Some mm_file ∧
  (¬ (unit_scale mm_file == 0)) ∧
  representations (wall_element fresh_obj) = Ok ([axis] ++ rect_body :: []) ∧
  forallb skipped ([axis] ++ []) = true ∧
  extrusion_of rect_body = Ok (Some rect_solid) ∧
  rectangle_extrusion rect_solid up rect_profile 3 (mkVector 0 0 1) 5 (1 # 5) ∧
  (pull rect_wall fresh_world).1 = Ok () ∧
  push rect_wall "ExtrusionDepth" (pulled rect_wall) =
    (Ok true,
     journaled (edit_attributes rect_solid
                  {[ "Depth" := VNum (3 * ((1 # 1000) * 1000) * mm_push) ]})
               (pulled rect_wall)) ∧
  push rect_wall "ExtrusionDirection" (pulled rect_wall) =
    (Ok true,
     journaled (edit_attributes up {[ "DirectionRatios" := VNums [0; 0; 1] ]})
               (pulled rect_wall)) ∧
  push rect_wall "RectangleLength" (pulled rect_wall) =
    (Ok true,
     journaled (edit_attributes rect_profile
                  {[ "XDim" := VNum (5 * ((1 # 1000) * 1000) * mm_push) ]})
               (pulled rect_wall)) ∧
  push rect_wall "RectangleWidth" (pulled rect_wall) =
    (Ok true,
     journaled (edit_attributes rect_profile
                  {[ "YDim" := VNum ((1 # 5) * ((1 # 1000) * 1000) * mm_push) ]})
               (pulled rect_wall)).
Proof.
  assert (H0 : ∀ o o', Name o = Name o' →
     wall_element o = wall_element o' ∧ mm_ifcfile o = mm_ifcfile o')
    by (intros o o' _; split; reflexivity).
  assert (H1 : has_representation (wall_element (w_obj fresh_world)) = true)
    by reflexivity.
  assert (H2 : mm_ifcfile (w_obj fresh_world) = Some mm_file) by reflexivity.
  assert (H3 : representations (wall_element (w_obj fresh_world)) =
               Ok ([axis] ++ rect_body :: [])) by reflexivity.
  assert (H4 : forallb skipped ([axis] ++ []) = true) by reflexivity.
  assert (H5 : extrusion_of rect_body = Ok (Some rect_solid)) by reflexivity.
  exact (conj H0 (conj H1 (conj H2 (conj mm_scale_not_zero (conj H3 (conj H4
         (conj H5 (conj rect_solid_shape
           (pull_then_push_round_trip wall_element has_representation mm_ifcfile H0
              fresh_world mm_file [axis] [] rect_body rect_solid up rect_profile
              3 (mkVector 0 0 1) 5 (1 # 5) H1 H2 mm_scale_not_zero H3 H4 H5
              rect_solid_shape))))))))).
Defined.

(** The wall with two bodies: 3 high in the first, 9 high in the second. *)
Lemma pull_last_push_first_witness :
  (∀ o o', Name o = Name o' →
     element_is (Some two_body_wall) o = element_is (Some two_body_wall) o' ∧
     mm_ifcfile o = mm_ifcfile o') ∧
  has_representation (element_is (Some two_body_wall) fresh_obj) = true ∧
  mm_ifcfile fresh_obj = Some mm_file ∧
  (¬ (unit_scale mm_file == 0)) ∧
  representations (element_is (Some two_body_wall) fresh_obj) =
    Ok ([axis] ++ rect_body :: [] ++ rect_body2 :: []) ∧
  forallb skipped ([axis] ++ [] ++ []) = true ∧
  extrusion_of rect_body = Ok (Some rect_solid) ∧
  rectangle_extrusion rect_solid up rect_profile 3 (mkVector 0 0 1) 5 (1 # 5) ∧
  extrusion_of rect_body2 = Ok (Some rect_solid2) ∧
  rectangle_extrusion rect_solid2 up rect_profile2 9 (mkVector 0 0 1) 7 (1 # 2) ∧
  (pull two_body_wall fresh_world).1 = Ok () ∧
  props (w_obj (pulled two_body_wall)) !! "ExtrusionDepth" =
    Some (PLength (9 * (unit_scale mm_file * 1000))) ∧
  push two_body_wall "ExtrusionDepth" (pulled two_body_wall) =
    (Ok true,
     journaled (edit_attributes rect_solid
                  {[ "Depth" := VNum (9 * (unit_scale mm_file * 1000) * mm_push) ]})
               (pulled two_body_wall)).
Proof.
  assert (H0 : ∀ o o', Name o = Name o' →
     element_is (Some two_body_wall) o = element_is (Some two_body_wall) o' ∧
     mm_ifcfile o = mm_ifcfile o')
    by (intros o o' _; split; reflexivity).
  assert (H1 : has_representation
                 (element_is (Some two_body_wall) (w_obj fresh_world)) = true)
    by reflexivity.
  assert (H2 : mm_ifcfile (w_obj fresh_world) = Some mm_file) by reflexivity.
  assert (H3 : representations (element_is (Some two_body_wall) (w_obj fresh_world)) =
               Ok ([axis] ++ rect_body :: [] ++ rect_body2 :: [])) by reflexivity.
  assert (H4 : forallb skipped ([axis] ++ [] ++ []) = true) by reflexivity.
  assert (H5 : extrusion_of rect_body = Ok (Some rect_solid)) by reflexivity.
  assert (H6 : extrusion_of rect_body2 = Ok (Some rect_solid2)) by reflexivity.
  exact (conj H0 (conj H1 (conj H2 (conj mm_scale_not_zero (conj H3 (conj H4
         (conj H5 (conj rect_solid_shape (conj H6 (conj rect_solid2_shape
           (pull_last_push_first (element_is (Some two_body_wall)) has_representation
              mm_ifcfile H0 fresh_world mm_file [axis] [] []
              rect_body rect_solid up rect_profile 3 (mkVector 0 0 1) 5 (1 # 5)
              rect_body2 rect_solid2 up rect_profile2 9 (mkVector 0 0 1) 7 (1 # 2)
              H1 H2 mm_scale_not_zero H3 H4 H5 rect_solid_shape H6
              rect_solid2_shape))))))))))).
Defined.

(** The slab whose last point has three coordinates: two vectors for three
    points. *)
Lemma add_geom_properties_point_count_witness :
  has_representation (element_is (Some tri3_slab) fresh_obj) = true ∧
  mm_ifcfile fresh_obj = Some mm_file ∧
  representations (element_is (Some tri3_slab) fresh_obj) = Ok ([] ++ tri3_body :: []) ∧
  forallb skipped ([] ++ []) = true ∧
  extrusion_of tri3_body = Ok (Some tri3_solid) ∧
  polyline_extrusion tri3_solid tri3_points tri3_coords ∧
  forallb (λ c, 2 <=? length c)%nat tri3_coords = true ∧
  (pull tri3_slab fresh_world).1 = Ok () ∧
  ∃ vectors,
    props (w_obj (pulled tri3_slab)) !! "PolylinePoints" = Some (PVectorList vectors) ∧
    (length vectors ≤ length tri3_points)%nat ∧
    (length vectors = length tri3_points ↔
     forallb (λ c, length c =? 2)%nat tri3_coords = true).
Proof.
  assert (H1 : has_representation
                 (element_is (Some tri3_slab) (w_obj fresh_world)) = true)
    by reflexivity.
  assert (H2 : mm_ifcfile (w_obj fresh_world) = Some mm_file) by reflexivity.
  assert (H3 : representations (element_is (Some tri3_slab) (w_obj fresh_world)) =
               Ok ([] ++ tri3_body :: [])) by reflexivity.
  assert (H4 : forallb skipped ([] ++ []) = true) by reflexivity.
  assert (H5 : extrusion_of tri3_body = Ok (Some tri3_solid)) by reflexivity.
  assert (H6 : polyline_extrusion tri3_solid tri3_points tri3_coords)
    by (exists 2, up, (mkVector 0 0 1), (closed_profile 66 triangle3), triangle3;
        repeat split; reflexivity).
  assert (H7 : forallb (λ c, 2 <=? length c)%nat tri3_coords = true) by reflexivity.
  exact (conj H1 (conj H2 (conj H3 (conj H4 (conj H5 (conj H6 (conj H7
           (add_geom_properties_point_count (element_is (Some tri3_slab))
              has_representation mm_ifcfile fresh_world mm_file [] [] tri3_body
              tri3_solid tri3_points tri3_coords H1 H2 H3 H4 H5 H6 H7)))))))).
Defined.

(** The storey: the action offered on it creates its child. *)
Lemma offered_action_creates_children_witness :
  setupContextMenu "Mod" mm_ifcfile children_of (attach storey_vp (mkViewObject storey))
    (mkViewObject storey) [] ≠ [] ∧
  ∃ ifcfile action,
    setupContextMenu "Mod" mm_ifcfile children_of
      (attach storey_vp (mkViewObject storey)) (mkViewObject storey) [] =
      [] ++ [action] ∧
    action_triggered action =
      [revealChildren_of (attach storey_vp (mkViewObject storey))] ∧
    mm_ifcfile storey = Some ifcfile ∧
    children_of storey ifcfile ≠ [] ∧
    revealChildren (list DocumentObject) mm_ifcfile make_children
      (attach storey_vp (mkViewObject storey)) [] =
      Some (make_children storey ifcfile []).
Proof.
  assert (H : setupContextMenu "Mod" mm_ifcfile children_of
                (attach storey_vp (mkViewObject storey)) (mkViewObject storey) [] ≠ [])
    by discriminate.
  exact (conj H (offered_action_creates_children (list DocumentObject) "Mod"
                   mm_ifcfile children_of make_children storey_vp
                   (mkViewObject storey) [] [] H)).
Defined.

(** The triangular slab with four points in the host: nothing is pushed. *)
Lemma set_geom_property_polyline_passed_over_witness :
  has_representation (element_is (Some tri_slab) (w_obj edited_outline)) = true ∧
  mm_ifcfile (w_obj edited_outline) = Some mm_file ∧
  (¬ (unit_scale mm_file == 0)) ∧
  is_Some (props (w_obj edited_outline) !! "PolylinePoints") ∧
  representations (element_is (Some tri_slab) (w_obj edited_outline)) = Ok [tri_body] ∧
  forallb well_typed_rep [tri_body] = true ∧
  push tri_slab "PolylinePoints" edited_outline = (Ok false, edited_outline).
Proof.
  assert (H1 : has_representation
                 (element_is (Some tri_slab) (w_obj edited_outline)) = true)
    by reflexivity.
  assert (H2 : mm_ifcfile (w_obj edited_outline) = Some mm_file) by reflexivity.
  assert (H3 : is_Some (props (w_obj edited_outline) !! "PolylinePoints"))
    by (vm_compute; eauto).
  assert (H4 : representations (element_is (Some tri_slab) (w_obj edited_outline)) =
               Ok [tri_body]) by reflexivity.
  assert (H5 : forallb well_typed_rep [tri_body] = true) by reflexivity.
  exact (conj H1 (conj H2 (conj mm_scale_not_zero (conj H3 (conj H4 (conj H5
           (set_geom_property_polyline_passed_over (element_is (Some tri_slab))
              has_representation mm_ifcfile edited_outline mm_file [tri_body]
              H1 H2 mm_scale_not_zero H3 H4 H5))))))).
Defined.

End FurtherInstances.

(** * A pull that fails half way *)

Lemma FreeCAD_Vector_refuses (t : list Q) :
  length t ≠ 3 → FreeCAD_Vector t = Raise ValueError.
Proof. destruct t as [|x [|y [|z [|u t]]]]; simpl; intros H; congruence. Qed.

Lemma lookup_ensured_eq (t : ptype) (name : string) (w : world) :
  props (w_obj (ensured t name w)) !! name =
  Some (default (default_value t) (props (w_obj w) !! name)).
Proof.
  unfold ensured. destruct (props (w_obj w) !! name) as [v|] eqn:E; simpl.
  - exact E.
  - apply lookup_insert_eq.
Qed.

Section PartialPull.

Variable get_ifc_element : DocumentObject → option entity.
Variable has_representation : option entity → bool.
Variable get_ifcfile : DocumentObject → option file.

(** [X12] The pull is not atomic.  When the extruded direction of the only
    extrusion body has other than three ratios, [add_geom_properties] raises
    the [ValueError] of the vector constructor, and the object keeps what the
    statements before it did: [ExtrusionDepth] is set to the depth times the
    factor, and [ExtrusionDirection] exists, with the value it had or, newly
    created, the zero vector. *)
Theorem add_geom_properties_partial (w : world) (f : file)
    (pre post : list entity) (rep ext dir : entity) (depth : Q) (ratios : list Q) :
  has_representation (get_ifc_element (w_obj w)) = true →
  get_ifcfile (w_obj w) = Some f →
  representations (get_ifc_element (w_obj w)) = Ok (pre ++ rep :: post) →
  forallb skipped (pre ++ post) = true →
  extrusion_of rep = Ok (Some ext) →
  attr_num ext "Depth" = Ok depth →
  attr_entity ext "ExtrudedDirection" = Ok dir →
  attr_nums dir "DirectionRatios" = Ok ratios →
  length ratios ≠ 3 →
  let pulled := add_geom_properties get_ifc_element has_representation get_ifcfile w in
  pulled.1 = Raise ValueError ∧
  props (w_obj pulled.2) !! "ExtrusionDepth" =
    Some (PLength (depth * (unit_scale f * 1000))) ∧
  props (w_obj pulled.2) !! "ExtrusionDirection" =
    Some (default (PVector (mkVector 0 0 0)) (props (w_obj w) !! "ExtrusionDirection")).
Proof.
  intros Hrep Hfile Hreps Hskip Hext Hdepth Hdir Hratios Hlen. cbv zeta.
  rewrite (add_geom_properties_single_extrusion _ _ _ w f pre post rep ext)
    by assumption.
  pose proof (FreeCAD_Vector_refuses ratios Hlen) as Hv.
  unfold add_extrusion_properties. repeat pull_step.
  rewrite (run_lift_raise _ _ _ _ Hv). cbn [fst snd].
  split; [reflexivity|]. split.
  - pull_lookup. reflexivity.
  - rewrite lookup_ensured_eq. pull_lookup. reflexivity.
Qed.

End PartialPull.

(** The wall whose direction has two ratios. *)
Lemma add_geom_properties_partial_witness :
  Sample.has_representation (Sample.element_is (Some Sample.flat_wall) Sample.fresh_obj) = true ∧
  Sample.mm_ifcfile Sample.fresh_obj = Some Sample.mm_file ∧
  representations (Sample.element_is (Some Sample.flat_wall) Sample.fresh_obj) =
    Ok ([] ++ Sample.flat_body :: []) ∧
  forallb skipped ([] ++ []) = true ∧
  extrusion_of Sample.flat_body = Ok (Some Sample.flat_solid) ∧
  attr_num Sample.flat_solid "Depth" = Ok 3%Q ∧
  attr_entity Sample.flat_solid "ExtrudedDirection" = Ok Sample.flat_direction ∧
  attr_nums Sample.flat_direction "DirectionRatios" = Ok [0; 1]%Q ∧
  length [0; 1]%Q ≠ 3 ∧
  (Sample.pull Sample.flat_wall Sample.fresh_world).1 = Raise ValueError ∧
  props (w_obj (Sample.pulled Sample.flat_wall)) !! "ExtrusionDepth" =
    Some (PLength (3 * (unit_scale Sample.mm_file * 1000))) ∧
  props (w_obj (Sample.pulled Sample.flat_wall)) !! "ExtrusionDirection" =
    Some (default (PVector (mkVector 0 0 0))
                  (props Sample.fresh_obj !! "ExtrusionDirection")).
Proof.
  assert (H1 : Sample.has_representation
                 (Sample.element_is (Some Sample.flat_wall)
                    (w_obj Sample.fresh_world)) = true) by reflexivity.
  assert (H2 : Sample.mm_ifcfile (w_obj Sample.fresh_world) = Some Sample.mm_file)
    by reflexivity.
  assert (H3 : representations
                 (Sample.element_is (Some Sample.flat_wall)
                    (w_obj Sample.fresh_world)) =
               Ok ([] ++ Sample.flat_body :: [])) by reflexivity.
  assert (H4 : forallb skipped ([] ++ []) = true) by reflexivity.
  assert (H5 : extrusion_of Sample.flat_body = Ok (Some Sample.flat_solid))
    by reflexivity.
  assert (H6 : attr_num Sample.flat_solid "Depth" = Ok 3%Q) by reflexivity.
  assert (H7 : attr_entity Sample.flat_solid "ExtrudedDirection" =
               Ok Sample.flat_direction) by reflexivity.
  assert (H8 : attr_nums Sample.flat_direction "DirectionRatios" = Ok [0; 1]%Q)
    by reflexivity.
  assert (H9 : length [0; 1]%Q ≠ 3) by (simpl; lia).
  exact (conj H1 (conj H2 (conj H3 (conj H4 (conj H5 (conj H6 (conj H7 (conj H8
         (conj H9
           (add_geom_properties_partial (Sample.element_is (Some Sample.flat_wall))
              Sample.has_representation Sample.mm_ifcfile Sample.fresh_world
              Sample.mm_file [] [] Sample.flat_body Sample.flat_solid
              Sample.flat_direction 3%Q [0; 1]%Q
              H1 H2 H3 H4 H5 H6 H7 H8 H9)))))))))).
Defined.
